(** * cuda_tools::host_shared_ptr — a host handle on a device allocation

    A shallow embedding of [host_shared_ptr.cu] (handle life cycle,
    transfers, host-side map/fill, [copy]) and of the two kernels
    ([kernel_fill] and the benchmark [kernel]) together with their launch
    configuration.

    Conventions.
    - [std::size_t] is a 64-bit unsigned integer, [int] a 32-bit signed one
      and [unsigned int] (the components of [threadIdx], [blockIdx],
      [blockDim] and [dim3]) a 32-bit unsigned one; all are carried as [Z]
      and every wrap-around is written out.
    - Device memory and host memory are two separate stores of blocks; a
      pointer is [None] ([nullptr]) or the address of a block.
    - A call of the CUDA runtime that reports an error reaches
      [cuda_safe_call], which terminates the process: [Fault CudaFailure].
      What C++ leaves undefined is [Fault UndefinedBehaviour]. *)

From stdpp Require Import base numbers option list gmap fin_maps.

Local Open Scope Z_scope.

(** ** Machine integers *)

Definition SIZE_MODULUS : Z := 2 ^ 64.
Definition UINT_MODULUS : Z := 2 ^ 32.
Definition INT_MAX : Z := 2 ^ 31 - 1.
Definition INT_MIN : Z := - 2 ^ 31.

(** Conversion to [std::size_t]. *)
Definition to_size_t (z : Z) : Z := z mod SIZE_MODULUS.

(** Conversion to [unsigned int]. *)
Definition to_uint (z : Z) : Z := z mod UINT_MODULUS.

(** Conversion to [int] (modular, as every CUDA host and device compiler
    does; C++20 makes it the rule). *)
Definition to_int (z : Z) : Z :=
  (z + 2 ^ 31) mod UINT_MODULUS - 2 ^ 31.

Definition in_size_t (z : Z) : Prop := 0 <= z < SIZE_MODULUS.
Definition in_int (z : Z) : Prop := INT_MIN <= z <= INT_MAX.

(** ** Outcomes *)

Inductive fault : Type :=
| CudaFailure          (* cuda_safe_call saw an error: process terminated *)
| UndefinedBehaviour.  (* out-of-bounds access, double delete[], overflow *)

Inductive result (A : Type) : Type :=
| Ok (a : A)
| Fault (f : fault).
Arguments Ok {A} a.
Arguments Fault {A} f.

(** [int] arithmetic: signed overflow is undefined. *)
Definition int_add (a b : Z) : result Z :=
  if decide (INT_MIN <= a + b <= INT_MAX) then Ok (a + b)
  else Fault UndefinedBehaviour.

Definition int_sub (a b : Z) : result Z :=
  if decide (INT_MIN <= a - b <= INT_MAX) then Ok (a - b)
  else Fault UndefinedBehaviour.

(** ** Memory *)

Definition loc := nat.
(** A pointer: [None] is [nullptr]. *)
Definition ptr := option loc.

Section Memory.

Context {T : Type}.

Record mem : Type := Mem {
  dev : gmap loc (list T);   (* live cudaMalloc blocks *)
  host : gmap loc (list T)   (* live new[] blocks *)
}.

(** State and failure threaded through the calls. *)
Definition M (A : Type) : Type := mem -> result (A * mem).

Definition ret {A} (a : A) : M A := fun m => Ok (a, m).

Definition bind {A B} (c : M A) (k : A -> M B) : M B :=
  fun m => match c m with
           | Ok (a, m') => k a m'
           | Fault f => Fault f
           end.

Definition lift {A} (r : result A) : M A :=
  fun m => match r with Ok a => Ok (a, m) | Fault f => Fault f end.

End Memory.

Arguments mem T : clear implicits.
Arguments M T A : clear implicits.

Notation "x <- c ;; k" := (bind c (fun x => k))
  (at level 100, c at next level, right associativity).
Notation "c ;;; k" := (bind c (fun _ => k))
  (at level 100, right associativity).

Fixpoint for_each {T A} (l : list A) (f : A -> M T unit) : M T unit :=
  match l with
  | [] => ret tt
  | x :: l' => f x ;;; for_each l' f
  end.

(** What the template needs of its element type [T]: [sizeof(T)], and the
    indeterminate contents of storage that was obtained and not yet
    written (cell [i] of the block at address [l]). *)
Class Element (T : Type) : Type := {
  sizeofT : Z;
  sizeofT_pos : 0 < sizeofT;
  uninit : loc -> nat -> T
}.

Section Buffers.

Context {T : Type} `{!Element T}.

Local Abbreviation mem := (mem T).
Local Abbreviation M := (M T).

Definition fresh_block (l : loc) (n : Z) : list T :=
  map (uninit l) (seq 0 (Z.to_nat n)).

(** *** The runtime: allocation, release, transfers

    Storage is unbounded: an allocation request is always served, at an
    address that is not live at that moment. *)

(** [cudaMalloc(&p, bytes)]: room for the whole elements that fit. *)
Definition cudaMalloc (bytes : Z) : M ptr := fun m =>
  let l := fresh (dom (dev m)) in
  Ok (Some l, Mem (<[l := fresh_block l (bytes / sizeofT)]> (dev m)) (host m)).

(** [cudaFree(p)]: nothing is done for [nullptr]; an address that is not
    a live device block is an error. *)
Definition cudaFree (p : ptr) : M unit := fun m =>
  match p with
  | None => Ok (tt, m)
  | Some l =>
      match dev m !! l with
      | Some _ => Ok (tt, Mem (delete l (dev m)) (host m))
      | None => Fault CudaFailure
      end
  end.

(** [new T[n]] *)
Definition new_array (n : Z) : M ptr := fun m =>
  let l := fresh (dom (host m)) in
  Ok (Some l, Mem (dev m) (<[l := fresh_block l n]> (host m))).

(** [delete[] p] for a non-null [p]. *)
Definition delete_array (p : ptr) : M unit := fun m =>
  match p with
  | None => Ok (tt, m)
  | Some l =>
      match host m !! l with
      | Some _ => Ok (tt, Mem (dev m) (delete l (host m)))
      | None => Fault UndefinedBehaviour
      end
  end.

Inductive cudaMemcpyKind : Type :=
| cudaMemcpyHostToDevice
| cudaMemcpyDeviceToHost
| cudaMemcpyDeviceToDevice.

(** The first [n] cells of [dst] overwritten with those of [src]. *)
Definition blit (n : nat) (src dst : list T) : list T :=
  take n src ++ drop n dst.

Definition block_at (s : gmap loc (list T)) (p : ptr) : option (list T) :=
  l ← p; s !! l.

(** [cudaMemcpy(dst, src, bytes, kind)]; [bytes / sizeof(T)] whole
    elements are transferred. *)
Definition cudaMemcpy (dst src : ptr) (bytes : Z) (kind : cudaMemcpyKind)
  : M unit := fun m =>
  let n := Z.to_nat (bytes / sizeofT) in
  let src_store := match kind with
                   | cudaMemcpyHostToDevice => host m
                   | _ => dev m
                   end in
  let dst_store := match kind with
                   | cudaMemcpyDeviceToHost => host m
                   | _ => dev m
                   end in
  match dst, block_at src_store src, block_at dst_store dst with
  | Some l, Some s, Some d =>
      if decide (n ≤ length s ∧ n ≤ length d)%nat then
        let d' := blit n s d in
        Ok (tt, match kind with
                | cudaMemcpyDeviceToHost => Mem (dev m) (<[l := d']> (host m))
                | _ => Mem (<[l := d']> (dev m)) (host m)
                end)
      else Fault CudaFailure
  | _, _, _ => Fault CudaFailure
  end.

(** ** The handle *)

Record host_shared_ptr : Type := HostSharedPtr {
  data_ : ptr;
  host_data_ : ptr;
  size_ : Z;       (* std::size_t *)
  counter_ : Z     (* int *)
}.

(** [host_shared_ptr() = default]: the default member initialisers. *)
Definition ctor_default : host_shared_ptr :=
  {| data_ := None; host_data_ := None; size_ := 0; counter_ := 1 |}.

Definition device_allocate (this : host_shared_ptr) (size : Z)
  : M host_shared_ptr :=
  p <- cudaMalloc (to_size_t (sizeofT * size)) ;;
  ret {| data_ := p; host_data_ := host_data_ this;
         size_ := size_ this; counter_ := counter_ this |}.

(** [host_shared_ptr(std::size_t size)] *)
Definition ctor_size (size : Z) : M host_shared_ptr :=
  device_allocate
    {| data_ := None; host_data_ := None; size_ := size; counter_ := 1 |}
    size.

(** [host_shared_ptr(host_shared_ptr<T>&& ptr)] *)
Definition ctor_move (p : host_shared_ptr) : result host_shared_ptr :=
  match int_add (counter_ p) 1 with
  | Ok c => Ok {| data_ := data_ p; host_data_ := host_data_ p;
                  size_ := size_ p; counter_ := c |}
  | Fault f => Fault f
  end.

(** [host_shared_ptr(host_shared_ptr<T>& ptr)] *)
Definition ctor_copy (p : host_shared_ptr) : result host_shared_ptr :=
  match int_add (counter_ p) 1 with
  | Ok c => Ok {| data_ := data_ p; host_data_ := host_data_ p;
                  size_ := size_ p; counter_ := c |}
  | Fault f => Fault f
  end.

(** [operator=(host_shared_ptr<T>&& r)]: three fields are assigned. *)
Definition assign (this r : host_shared_ptr) : result host_shared_ptr :=
  match int_add (counter_ r) 1 with
  | Ok c => Ok {| data_ := data_ r; host_data_ := host_data_ this;
                  size_ := size_ r; counter_ := c |}
  | Fault f => Fault f
  end.

(** [~host_shared_ptr()]; the handle is returned as the destructor
    leaves it. *)
Definition dtor (this : host_shared_ptr) : M host_shared_ptr :=
  c <- lift (int_sub (counter_ this) 1) ;;
  let this' := {| data_ := data_ this; host_data_ := host_data_ this;
                  size_ := size_ this; counter_ := c |} in
  if decide (c = 0) then
    cudaFree (data_ this') ;;;
    (if decide (host_data_ this' ≠ None)
     then delete_array (host_data_ this')
     else ret tt) ;;;
    ret this'
  else ret this'.

(** [host_allocate(std::size_t size)] *)
Definition host_allocate (this : host_shared_ptr) (size : Z)
  : M host_shared_ptr :=
  p <- new_array size ;;
  ret {| data_ := data_ this; host_data_ := p;
         size_ := size; counter_ := counter_ this |}.

(** [host_allocate()] *)
Definition host_allocate0 (this : host_shared_ptr) : M host_shared_ptr :=
  host_allocate this (size_ this).

(** [download()]: the handle after the call and the returned pointer. *)
Definition download (this : host_shared_ptr) : M (host_shared_ptr * ptr) :=
  this' <- (if decide (host_data_ this = None)
            then host_allocate0 this else ret this) ;;
  cudaMemcpy (host_data_ this') (data_ this')
             (to_size_t (sizeofT * size_ this'))
             cudaMemcpyDeviceToHost ;;;
  ret (this', host_data_ this').

(** [upload()] *)
Definition upload (this : host_shared_ptr) : M unit :=
  cudaMemcpy (data_ this) (host_data_ this)
             (to_size_t (sizeofT * size_ this))
             cudaMemcpyHostToDevice.

(** *** The view handed to kernels *)

(** Modelled from the spec: [device_buffer] (device_buffer.cuh) is the
    view of the design, the snapshot {pointer, elementCount} taken from the
    handle, and [buffer[i]] is the cell [data_[i]]. The element count is
    kept as the handle has it, a [std::size_t]. *)
Record device_buffer : Type := DeviceBuffer {
  db_data_ : ptr;
  db_size_ : Z     (* the element count, as the handle holds it *)
}.

Definition to_view (this : host_shared_ptr) : device_buffer :=
  {| db_data_ := data_ this; db_size_ := size_ this |}.

(** [to_device()] *)
Definition to_device (this : host_shared_ptr) : device_buffer :=
  to_view this.

(** *** Launches *)

(** [dim3(x, y)]: the components are [unsigned int]. *)
Record dim3 : Type := Dim3 { dim_x : Z; dim_y : Z }.

Definition mk_dim3 (x y : Z) : dim3 :=
  {| dim_x := to_uint x; dim_y := to_uint y |}.

(** What a thread reads of its coordinates. *)
Record thread : Type := Thread {
  threadIdx_x : Z;
  blockIdx_x : Z;
  blockDim_x : Z
}.

(** The store [p[i] = v] that a thread performs. *)
Record store : Type := Store {
  st_ptr : ptr;
  st_index : Z;
  st_value : T
}.

(** A kernel: what one thread does, that is, the store it performs, or
    none. *)
Definition kernel_body : Type := thread -> option store.

(** The threads of a launch [<<<grid, block>>>], block after block. *)
Definition launch_threads (grid block : dim3) : list thread :=
  _ ← seqZ 0 (dim_y grid);
  bx ← seqZ 0 (dim_x grid);
  _ ← seqZ 0 (dim_y block);
  tx ← seqZ 0 (dim_x block);
  [ {| threadIdx_x := tx; blockIdx_x := bx; blockDim_x := dim_x block |} ].

(** A store to device memory; outside the block it is undefined. *)
Definition device_store (s : store) : M unit := fun m =>
  match st_ptr s with
  | Some l =>
      match dev m !! l with
      | Some blk =>
          if decide (0 <= st_index s < Z.of_nat (length blk)) then
            Ok (tt, Mem (<[l := <[Z.to_nat (st_index s) := st_value s]> blk]>
                           (dev m))
                        (host m))
          else Fault UndefinedBehaviour
      | None => Fault UndefinedBehaviour
      end
  | None => Fault UndefinedBehaviour
  end.

Definition run_thread (k : kernel_body) (t : thread) : M unit :=
  match k t with
  | Some s => device_store s
  | None => ret tt
  end.

(** Modelled from the spec: the launch [k<<<grid, block>>>(...)] followed
    by [kernel_check_error()] (cuda_error_checking.cuh) and
    [cudaDeviceSynchronize()] runs the kernel once per thread of the grid
    and is synchronous for the caller. The runtime serves every
    configuration: a grid without tiles has no thread, and a launch fails
    only through a store outside its block. The threads are taken block
    after block; the stores of a launch of this repository hit distinct
    cells, so that any other order leaves the same memory. *)
Definition launch (grid block : dim3) (k : kernel_body) : M unit :=
  for_each (launch_threads grid block) (run_thread k).

(** The stores of a launch, in the order of [launch_threads]. *)
Definition launch_stores (grid block : dim3) (k : kernel_body) : list store :=
  omap k (launch_threads grid block).

(** [threadIdx.x + blockIdx.x * blockDim.x], computed in [unsigned int]
    and stored in an [int]. *)
Definition linear_index (t : thread) : Z :=
  to_int (to_uint (threadIdx_x t + to_uint (blockIdx_x t * blockDim_x t))).

(** [index < buffer.size_]: the [int] is converted to the type of the
    element count. *)
Definition index_in_range (index size : Z) : bool :=
  bool_decide (to_size_t index < size).

(** [kernel_fill(buffer, func)] *)
Definition kernel_fill (buffer : device_buffer) (func : unit -> T)
  : kernel_body := fun t =>
  let index := linear_index t in
  if index_in_range index (db_size_ buffer)
  then Some {| st_ptr := db_data_ buffer; st_index := index;
               st_value := func tt |}
  else None.

Definition TILE_WIDTH : Z := 64.
Definition TILE_HEIGHT : Z := 1.

(** [(size_ + TILE_WIDTH - 1) / TILE_WIDTH], computed in [std::size_t]
    and stored in an [int]. *)
Definition grid_x (size : Z) : Z :=
  to_int (to_size_t (size + TILE_WIDTH - 1) / TILE_WIDTH).

(** [device_fill(const T val)] *)
Definition device_fill (this : host_shared_ptr) (val : T) : M unit :=
  let device_buffer := to_view this in
  let lambda := fun _ : unit => val in
  let gx := grid_x (size_ this) in
  let gy := 1 in
  let block := mk_dim3 TILE_WIDTH TILE_HEIGHT in
  let grid := mk_dim3 gx gy in
  launch grid block (kernel_fill device_buffer lambda).

(** *** Host-side transforms *)

(** [std::transform(par_unseq, p, p + n, p, func)] on the host. *)
Definition std_transform (p : ptr) (n : Z) (func : T -> T) : M unit :=
  fun m =>
  match p, block_at (host m) p with
  | Some l, Some blk =>
      if decide (Z.to_nat n ≤ length blk)%nat then
        Ok (tt, Mem (dev m)
                    (<[l := (func <$> take (Z.to_nat n) blk)
                              ++ drop (Z.to_nat n) blk]> (host m)))
      else Fault UndefinedBehaviour
  | _, _ => Fault UndefinedBehaviour
  end.

(** [std::copy(par_unseq, src, src + n, dst)] on the host. *)
Definition std_copy (src : ptr) (n : Z) (dst : ptr) : M unit := fun m =>
  match dst, block_at (host m) src, block_at (host m) dst with
  | Some l, Some s, Some d =>
      if decide (Z.to_nat n ≤ length s ∧ Z.to_nat n ≤ length d)%nat then
        Ok (tt, Mem (dev m) (<[l := blit (Z.to_nat n) s d]> (host m)))
      else Fault UndefinedBehaviour
  | _, _, _ => Fault UndefinedBehaviour
  end.

(** [host_map(std::function<T(T)> func)] *)
Definition host_map (this : host_shared_ptr) (func : T -> T)
  : M host_shared_ptr :=
  this' <- (if decide (host_data_ this = None)
            then host_allocate0 this else ret this) ;;
  std_transform (host_data_ this') (size_ this') func ;;;
  ret this'.

(** [host_fill(const T val)] *)
Definition host_fill (this : host_shared_ptr) (val : T)
  : M host_shared_ptr :=
  host_map this (fun _ => val).

(** [host_fill(std::function<T()> func)] *)
Definition host_fill_with (this : host_shared_ptr) (func : unit -> T)
  : M host_shared_ptr :=
  host_map this (fun _ => func tt).

(** [copy()]; the named local [cp] is the returned object (the return
    value is constructed in place). *)
Definition copy (this : host_shared_ptr) : M host_shared_ptr :=
  cp <- ctor_size (size_ this) ;;
  cudaMemcpy (data_ cp) (data_ this)
             (to_size_t (sizeofT * size_ this))
             cudaMemcpyDeviceToDevice ;;;
  if decide (host_data_ this ≠ None) then
    cp' <- host_allocate0 cp ;;
    std_copy (host_data_ this) (size_ this) (host_data_ cp') ;;;
    ret cp'
  else ret cp.

(** *** Buffers in a memory *)

(** The device block and the host mirror a handle points at. *)
Definition device_block (m : mem) (h : host_shared_ptr) : option (list T) :=
  block_at (dev m) (data_ h).

Definition mirror (m : mem) (h : host_shared_ptr) : option (list T) :=
  block_at (host m) (host_data_ h).

(** A buffer: the handle's device pointer is a live block of [size_]
    elements whose byte size is a [std::size_t], and the mirror, when
    there is one, is a live host block of [size_] elements. *)
Record buffer_in (m : mem) (h : host_shared_ptr) : Prop := {
  buf_size : 0 <= size_ h;
  buf_bytes : sizeofT * size_ h < SIZE_MODULUS;
  buf_device : exists blk, device_block m h = Some blk
                           /\ Z.of_nat (length blk) = size_ h;
  buf_mirror : host_data_ h = None
               \/ exists blk, mirror m h = Some blk
                              /\ Z.of_nat (length blk) = size_ h
}.

End Buffers.

Arguments store T : clear implicits.
Arguments kernel_body T : clear implicits.

(** ** The benchmark: [int] elements *)

#[export] Instance int_Element : Element Z :=
  {| sizeofT := 4; sizeofT_pos := eq_refl; uninit := fun _ _ => 0 |}.

(** [kernel(device_buffer<int> buffer)] of to_bench.cu *)
Definition kernel (buffer : device_buffer) : kernel_body Z := fun t =>
  let index := linear_index t in
  if index_in_range index (db_size_ buffer)
  then Some {| st_ptr := db_data_ buffer; st_index := index; st_value := 0 |}
  else None.

(** [to_bench(host_shared_ptr<int> buffer)]: the launch it issues (the
    profiler calls have no effect on memory). *)
Definition to_bench (buffer : host_shared_ptr) : M Z unit :=
  let device_buffer := to_view buffer in
  let gx := grid_x (size_ buffer) in
  let gy := 1 in
  let block := mk_dim3 TILE_WIDTH TILE_HEIGHT in
  let grid := mk_dim3 gx gy in
  launch grid block (kernel device_buffer).

(** A call [to_bench(h)]: the parameter is passed by value, so it is a
    handle of its own, made by the copy constructor and destroyed when the
    call returns. *)
Definition call_to_bench (h : host_shared_ptr) : M Z host_shared_ptr :=
  buffer <- lift (ctor_copy h) ;;
  to_bench buffer ;;;
  dtor buffer.

(** The memory in which nothing is allocated. *)
Definition empty_mem : mem Z := Mem ∅ ∅.

(** ** Element access *)

Section Indexing.

Context {T : Type} `{!Element T}.

(** [operator[](std::ptrdiff_t idx)], [const] and not: the reference
    [host_data_[idx]]. There is no check: outside the block the mirror
    pointer addresses (or with no mirror) the access is undefined. *)
Definition index_cell (m : mem T) (this : host_shared_ptr) (idx : Z)
  : option (loc * list T) :=
  match host_data_ this with
  | Some l =>
      match host m !! l with
      | Some blk =>
          if decide (0 <= idx < Z.of_nat (length blk))
          then Some (l, blk) else None
      | None => None
      end
  | None => None
  end.

(** Reading through the reference: [x = h[idx]]. *)
Definition index_read (this : host_shared_ptr) (idx : Z) : M T T :=
  fun m =>
  match index_cell m this idx with
  | Some (l, blk) =>
      match blk !! Z.to_nat idx with
      | Some x => Ok (x, m)
      | None => Fault UndefinedBehaviour
      end
  | None => Fault UndefinedBehaviour
  end.

(** Writing through the reference: [h[idx] = x]. *)
Definition index_write (this : host_shared_ptr) (idx : Z) (x : T)
  : M T unit := fun m =>
  match index_cell m this idx with
  | Some (l, blk) =>
      Ok (tt, Mem (dev m) (<[l := <[Z.to_nat idx := x]> blk]> (host m)))
  | None => Fault UndefinedBehaviour
  end.

End Indexing.

(** ** Vocabulary of the statements *)

(** The ceiling of [n / d]. *)
Definition ceil_div (n d : Z) : Z := - ((- n) / d).

(** The thread whose linear position in the grid is [j]. *)
Definition thread_of (j : Z) : thread :=
  {| threadIdx_x := j mod TILE_WIDTH; blockIdx_x := j / TILE_WIDTH;
     blockDim_x := TILE_WIDTH |}.

(** How many elements an [int] index can reach in a buffer of [n]. *)
Definition reachable (n : Z) : Z := Z.min n (2 ^ 31).

Section Vocabulary.

Context {T : Type} `{!Element T}.

(** The cell a store hits. *)
Definition store_cell (s : store T) : ptr * Z := (st_ptr s, st_index s).

(** The first [c] cells hold [v], the others are as in [blk]. *)
Definition filled (c : nat) (v : T) (blk : list T) : list T :=
  replicate c v ++ drop c blk.

(** The handle with its mirror at [lh]. *)
Definition with_mirror (h : host_shared_ptr) (lh : loc) : host_shared_ptr :=
  {| data_ := data_ h; host_data_ := Some lh;
     size_ := size_ h; counter_ := counter_ h |}.

(** Where the mirror is, or where it will be put. *)
Definition mirror_loc (m : mem T) (h : host_shared_ptr) : loc :=
  default (fresh (dom (host m))) (host_data_ h).

(** What [host_map] reads: the mirror, or the block it allocates. *)
Definition mirror_source (m : mem T) (h : host_shared_ptr) : list T :=
  default (fresh_block (mirror_loc m h) (size_ h)) (mirror m h).

(** The handle that [copy] returns and the memory it leaves. *)
Definition copy_handle (m : mem T) (h : host_shared_ptr) : host_shared_ptr :=
  {| data_ := Some (fresh (dom (dev m)));
     host_data_ := match host_data_ h with
                   | Some _ => Some (fresh (dom (host m)))
                   | None => None
                   end;
     size_ := size_ h; counter_ := 1 |}.

Definition copy_mem (m : mem T) (h : host_shared_ptr) : mem T :=
  Mem (match device_block m h with
       | Some blk => <[fresh (dom (dev m)) := blk]> (dev m)
       | None => dev m
       end)
      (match mirror m h with
       | Some hb => <[fresh (dom (host m)) := hb]> (host m)
       | None => host m
       end).

(** The memory without the blocks of a handle. *)
Definition released (m : mem T) (h : host_shared_ptr) : mem T :=
  Mem (match data_ h with Some l => delete l (dev m) | None => dev m end)
      (match host_data_ h with
       | Some lh => delete lh (host m)
       | None => host m
       end).

End Vocabulary.

(** ** Concrete buffers and scenarios *)

(** A buffer of eight [int]s, as the constructor makes it. *)
Definition buf8 : host_shared_ptr :=
  {| data_ := Some 0%nat; host_data_ := None; size_ := 8; counter_ := 1 |}.
Definition mem8 : mem Z :=
  Mem (<[0%nat := fresh_block 0%nat 8]> ∅) ∅.
(** One element more than an [int] index can reach. *)
Definition big : Z := 2 ^ 31 + 1.

(** A buffer of eight [int]s with a mirror that holds 1..8. *)
Definition buf8m : host_shared_ptr :=
  {| data_ := Some 0%nat; host_data_ := Some 0%nat;
     size_ := 8; counter_ := 1 |}.
Definition mem8m : mem Z :=
  Mem (<[0%nat := fresh_block 0%nat 8]> ∅)
      (<[0%nat := [1; 2; 3; 4; 5; 6; 7; 8]]> ∅).

(** The handles that the copy constructor makes from these two. *)
Definition buf8_copy : host_shared_ptr :=
  {| data_ := Some 0%nat; host_data_ := None; size_ := 8; counter_ := 2 |}.
Definition buf8m_copy : host_shared_ptr :=
  {| data_ := Some 0%nat; host_data_ := Some 0%nat;
     size_ := 8; counter_ := 2 |}.

(** [host_shared_ptr<int> a(8); host_shared_ptr<int> b(a);] and then the
    end of [a]'s life. *)
Definition copy_then_destroy_origin
  : M Z (host_shared_ptr * host_shared_ptr) :=
  a <- ctor_size 8 ;;
  b <- lift (ctor_copy a) ;;
  a' <- dtor a ;;
  ret (a', b).

(** The same two handles, [b] dying first. *)
Definition copy_then_destroy_copy
  : M Z (host_shared_ptr * host_shared_ptr) :=
  a <- ctor_size 8 ;;
  b <- lift (ctor_copy a) ;;
  b' <- dtor b ;;
  ret (a, b').

(** The two handles of an assignment, each with a mirror of its own. *)
Definition assign_target : host_shared_ptr :=
  {| data_ := Some 0%nat; host_data_ := Some 0%nat;
     size_ := 4; counter_ := 1 |}.
Definition assign_source : host_shared_ptr :=
  {| data_ := Some 1%nat; host_data_ := Some 1%nat;
     size_ := 4; counter_ := 1 |}.

(** * Properties *)

(** ** Machine integers *)

Lemma to_size_t_id z : in_size_t z -> to_size_t z = z.
Proof. intros Hz. apply Z.mod_small, Hz. Qed.

Lemma to_uint_id z : 0 <= z < UINT_MODULUS -> to_uint z = z.
Proof. intros Hz. apply Z.mod_small, Hz. Qed.

Lemma to_int_id z : in_int z -> to_int z = z.
Proof.
  unfold in_int, INT_MIN, INT_MAX, to_int, UINT_MODULUS. intros Hz.
  rewrite Z.mod_small; lia.
Qed.

(** An [unsigned int] beyond [INT_MAX] becomes a negative [int]. *)
Lemma to_int_high z :
  2 ^ 31 <= z < UINT_MODULUS -> to_int z = z - UINT_MODULUS.
Proof.
  unfold to_int, UINT_MODULUS. intros Hz.
  replace (z + 2 ^ 31) with ((z - 2 ^ 31) + 1 * 2 ^ 32) by lia.
  rewrite Z.mod_add by lia. rewrite Z.mod_small; lia.
Qed.

Lemma to_size_t_neg z :
  - SIZE_MODULUS <= z < 0 -> to_size_t z = z + SIZE_MODULUS.
Proof.
  unfold to_size_t, SIZE_MODULUS. intros Hz.
  replace z with ((z + 2 ^ 64) + (-1) * 2 ^ 64) at 1 by lia.
  rewrite Z.mod_add by lia. rewrite Z.mod_small; lia.
Qed.

Lemma ceil_div_tiles n : (n + 63) / 64 = ceil_div n 64.
Proof.
  unfold ceil_div.
  assert (H1 : n + 63 = 64 * ((n + 63) / 64) + (n + 63) mod 64)
    by (apply Z.div_mod; lia).
  assert (H2 : 0 <= (n + 63) mod 64 < 64) by (apply Z.mod_pos_bound; lia).
  assert (H3 : - n = 64 * ((- n) / 64) + (- n) mod 64)
    by (apply Z.div_mod; lia).
  assert (H4 : 0 <= (- n) mod 64 < 64) by (apply Z.mod_pos_bound; lia).
  lia.
Qed.

(** The grid width is the ceiling as long as it is an [int]. *)
Lemma grid_x_ceil n :
  0 <= n <= 2 ^ 32 - 64 -> grid_x n = ceil_div n 64.
Proof.
  intros Hn. unfold grid_x, TILE_WIDTH.
  rewrite to_size_t_id by (unfold in_size_t, SIZE_MODULUS; lia).
  replace (n + 64 - 1) with (n + 63) by lia.
  assert (0 <= (n + 63) / 64) by (apply Z.div_pos; lia).
  assert ((n + 63) / 64 < 2 ^ 26) by (apply Z.div_lt_upper_bound; lia).
  rewrite to_int_id by (unfold in_int, INT_MIN, INT_MAX; lia).
  apply ceil_div_tiles.
Qed.

Lemma ceil_div_bounds n :
  64 * (ceil_div n 64 - 1) < n <= 64 * ceil_div n 64.
Proof.
  rewrite <- ceil_div_tiles.
  assert (H1 : n + 63 = 64 * ((n + 63) / 64) + (n + 63) mod 64)
    by (apply Z.div_mod; lia).
  assert (H2 : 0 <= (n + 63) mod 64 < 64) by (apply Z.mod_pos_bound; lia).
  lia.
Qed.

(** ** The threads of a launch *)

Lemma bind_singleton_fmap {A B} (f : A -> B) (l : list A) :
  (x ← l; [f x]) = f <$> l.
Proof. induction l as [|a l IH]; [done|]. by rewrite bind_cons, IH. Qed.

Lemma block_threads g :
  (fun tx => Thread tx g TILE_WIDTH) <$> seqZ 0 TILE_WIDTH
  = thread_of <$> seqZ (g * TILE_WIDTH) TILE_WIDTH.
Proof.
  replace (g * TILE_WIDTH) with (g * TILE_WIDTH + 0) by lia.
  rewrite <- fmap_add_seqZ, <- list_fmap_compose.
  apply list_fmap_ext. intros i tx Htx.
  apply lookup_seqZ in Htx as [-> Hi]. unfold TILE_WIDTH in *.
  unfold thread_of, compose, TILE_WIDTH.
  replace (g * 64 + (0 + Z.of_nat i)) with (Z.of_nat i + g * 64) by lia.
  rewrite Z.mod_add, Z.div_add by lia.
  rewrite Z.mod_small, Z.div_small by lia.
  f_equal; lia.
Qed.

(** The launches of this repository take the threads in linear order. *)
Lemma launch_threads_linear gx :
  0 <= gx < UINT_MODULUS ->
  launch_threads (mk_dim3 gx 1) (mk_dim3 TILE_WIDTH TILE_HEIGHT)
  = thread_of <$> seqZ 0 (gx * TILE_WIDTH).
Proof.
  intros Hgx. unfold launch_threads, mk_dim3, dim_x, dim_y.
  rewrite (to_uint_id gx) by done.
  change (to_uint TILE_WIDTH) with TILE_WIDTH.
  change (seqZ 0 (to_uint TILE_HEIGHT)) with [0].
  change (seqZ 0 (to_uint 1)) with [0].
  rewrite bind_singleton.
  replace gx with (Z.of_nat (Z.to_nat gx)) by lia.
  induction (Z.to_nat gx) as [|g IH].
  - done.
  - rewrite seqZ_S, bind_app, IH, bind_singleton, bind_singleton.
    rewrite bind_singleton_fmap, block_threads.
    replace (Z.of_nat (S g) * TILE_WIDTH)
      with (Z.of_nat g * TILE_WIDTH + TILE_WIDTH) by lia.
    rewrite seqZ_app by (unfold TILE_WIDTH; lia).
    by rewrite fmap_app.
Qed.

Lemma linear_index_thread_of j :
  0 <= j < UINT_MODULUS -> linear_index (thread_of j) = to_int j.
Proof.
  intros Hj. unfold linear_index, thread_of, TILE_WIDTH; simpl.
  assert (Hdm : j = 64 * (j / 64) + j mod 64) by (apply Z.div_mod; lia).
  assert (Hm : 0 <= j mod 64 < 64) by (apply Z.mod_pos_bound; lia).
  rewrite (to_uint_id (j / 64 * 64)) by lia.
  replace (j mod 64 + j / 64 * 64) with j by lia.
  by rewrite to_uint_id.
Qed.

(** The index a thread computes is an [int], whatever the launch. *)
Lemma linear_index_int t : in_int (linear_index t).
Proof.
  unfold linear_index, to_int, in_int, INT_MIN, INT_MAX, UINT_MODULUS.
  pose proof (Z.mod_pos_bound
                (to_uint (threadIdx_x t + to_uint (blockIdx_x t * blockDim_x t))
                 + 2 ^ 31) (2 ^ 32)).
  lia.
Qed.

(** The bounds check of the kernels, thread by thread. *)
Lemma index_check j n :
  0 <= j < UINT_MODULUS -> 0 <= n <= 2 ^ 32 ->
  index_in_range (to_int j) n = bool_decide (j < reachable n).
Proof.
  intros Hj Hn. unfold index_in_range, reachable, UINT_MODULUS in *.
  destruct (decide (j < 2 ^ 31)) as [Hlo|Hhi].
  - rewrite to_int_id by (unfold in_int, INT_MIN, INT_MAX; lia).
    rewrite to_size_t_id by (unfold in_size_t, SIZE_MODULUS; lia).
    apply bool_decide_ext. lia.
  - rewrite to_int_high by (unfold UINT_MODULUS; lia).
    rewrite to_size_t_neg by (unfold UINT_MODULUS, SIZE_MODULUS; lia).
    apply bool_decide_ext. unfold UINT_MODULUS, SIZE_MODULUS. lia.
Qed.

Lemma omap_all_Some {A B} (k : A -> option B) (g : A -> B) (l : list A) :
  (forall x, x ∈ l -> k x = Some (g x)) -> omap k l = g <$> l.
Proof.
  induction l as [|a l IH]; intros Hk; [done|]. simpl.
  rewrite (Hk a) by left. simpl. f_equal. apply IH. intros x Hx.
  apply Hk. by right.
Qed.

Lemma omap_all_None {A B} (k : A -> option B) (l : list A) :
  (forall x, x ∈ l -> k x = None) -> omap k l = [].
Proof.
  induction l as [|a l IH]; intros Hk; [done|]. simpl.
  rewrite (Hk a) by left. apply IH. intros x Hx. apply Hk. by right.
Qed.

Lemma omap_seqZ_prefix {B} (k : Z -> option B) (g : Z -> B) (lim len : Z) :
  0 <= lim <= len ->
  (forall j, 0 <= j < lim -> k j = Some (g j)) ->
  (forall j, lim <= j < len -> k j = None) ->
  omap k (seqZ 0 len) = g <$> seqZ 0 lim.
Proof.
  intros Hl Hin Hout.
  replace len with (lim + (len - lim)) by lia.
  rewrite seqZ_app, omap_app by lia.
  rewrite (omap_all_Some k g), omap_all_None.
  - by rewrite app_nil_r.
  - intros j Hj. apply elem_of_seqZ in Hj. apply Hout. lia.
  - intros j Hj. apply elem_of_seqZ in Hj. apply Hin. lia.
Qed.

Lemma omap_fmap {A B C} (f : A -> B) (k : B -> option C) (l : list A) :
  omap k (f <$> l) = omap (k ∘ f) l.
Proof. induction l as [|a l IH]; [done|]. csimpl. by rewrite IH. Qed.

Section Kernels.

Context {T : Type} `{!Element T}.

(** The store of the thread in linear position [j]. *)
Lemma kernel_fill_thread (p : ptr) (n : Z) (func : unit -> T) (j : Z) :
  0 <= j < UINT_MODULUS -> 0 <= n <= 2 ^ 32 ->
  kernel_fill (DeviceBuffer p n) func (thread_of j)
  = if bool_decide (j < reachable n)
    then Some (Store p j (func tt)) else None.
Proof.
  intros Hj Hn. unfold kernel_fill; simpl.
  rewrite linear_index_thread_of, index_check by done.
  case_bool_decide as Hlt; [|done].
  rewrite to_int_id; [done|].
  unfold reachable, in_int, INT_MIN, INT_MAX in *. lia.
Qed.

(** A store of [kernel_fill] goes to the cell of the thread's index. *)
Lemma kernel_fill_store (buffer : device_buffer) (func : unit -> T) t s :
  kernel_fill buffer func t = Some s ->
  st_index s = linear_index t /\ st_ptr s = db_data_ buffer.
Proof.
  unfold kernel_fill. destruct (index_in_range _ _); [|discriminate].
  by intros [= <-].
Qed.

Lemma grid_threads_bound n :
  0 <= n <= 2 ^ 32 - 64 ->
  0 <= grid_x n < UINT_MODULUS
  /\ n <= grid_x n * TILE_WIDTH <= 2 ^ 32 - 64.
Proof.
  intros Hn. rewrite grid_x_ceil by done.
  pose proof (ceil_div_bounds n) as Hb.
  unfold UINT_MODULUS, TILE_WIDTH.
  assert (ceil_div n 64 <= 2 ^ 26 - 1).
  { rewrite <- ceil_div_tiles. apply Z.lt_succ_r.
    apply Z.div_lt_upper_bound; lia. }
  lia.
Qed.

(** The stores of a fill launch: one per reachable element, in order. *)
Lemma launch_stores_fill (p : ptr) (n : Z) (func : unit -> T) :
  0 <= n <= 2 ^ 32 - 64 ->
  launch_stores (mk_dim3 (grid_x n) 1) (mk_dim3 TILE_WIDTH TILE_HEIGHT)
                (kernel_fill (DeviceBuffer p n) func)
  = (fun j => Store p j (func tt)) <$> seqZ 0 (reachable n).
Proof.
  intros Hn. destruct (grid_threads_bound n Hn) as [Hg Ht].
  unfold launch_stores. rewrite launch_threads_linear by done.
  rewrite omap_fmap.
  apply omap_seqZ_prefix.
  - unfold reachable. lia.
  - intros j Hj. unfold compose.
    rewrite kernel_fill_thread by (unfold UINT_MODULUS, reachable in *; lia).
    by rewrite bool_decide_true by lia.
  - intros j Hj. unfold compose.
    rewrite kernel_fill_thread by (unfold UINT_MODULUS, reachable in *; lia).
    by rewrite bool_decide_false by lia.
Qed.

End Kernels.

(** ** Launches as memory transformers *)

Section Launches.

Context {T : Type} `{!Element T}.

Lemma for_each_app {A} (l1 l2 : list A) (f : A -> M T unit) (m : mem T) :
  for_each (l1 ++ l2) f m
  = match for_each l1 f m with
    | Ok (_, m') => for_each l2 f m'
    | Fault e => Fault e
    end.
Proof.
  revert m. induction l1 as [|a l1 IH]; intros m; [done|].
  simpl. unfold bind. destruct (f a m) as [[[] m']|e]; [apply IH|done].
Qed.

(** Running threads is performing their stores, in order. *)
Lemma threads_perform_stores (k : kernel_body T) (l : list thread) m :
  for_each l (run_thread k) m = for_each (omap k l) device_store m.
Proof.
  revert m. induction l as [|t l IH]; intros m.
  - done.
  - simpl. unfold run_thread at 1. destruct (k t) as [s|]; simpl.
    + unfold bind. destruct (device_store s m) as [[[] m']|e]; [apply IH|done].
    + apply IH.
Qed.

Lemma launch_performs_stores (grid block : dim3) (k : kernel_body T) m :
  launch grid block k m
  = for_each (launch_stores grid block k) device_store m.
Proof. apply threads_perform_stores. Qed.

(** Two stores to distinct cells commute, failures included. *)
Lemma device_store_swap (s1 s2 : store T) (m : mem T) :
  store_cell s1 <> store_cell s2 ->
  (device_store s1 ;;; device_store s2) m
  = (device_store s2 ;;; device_store s1) m.
Proof.
  destruct s1 as [p1 i1 v1], s2 as [p2 i2 v2], m as [d h].
  unfold store_cell, bind, device_store; simpl. intros Hne.
  destruct p1 as [l1|], p2 as [l2|]; simpl.
  - destruct (decide (l1 = l2)) as [->|Hl].
    + assert (Hi : i1 <> i2) by congruence.
      destruct (d !! l2) as [blk|] eqn:Hblk; [|done].
      destruct (decide (0 <= i1 < Z.of_nat (length blk))) as [H1|H1];
        destruct (decide (0 <= i2 < Z.of_nat (length blk))) as [H2|H2];
        simpl; rewrite ?lookup_insert_eq, ?length_insert;
        rewrite ?decide_True, ?decide_False by done; try done.
      rewrite !insert_insert_eq.
      by rewrite list_insert_insert_ne by lia.
    + destruct (d !! l1) as [b1|] eqn:Hb1, (d !! l2) as [b2|] eqn:Hb2;
        simpl; rewrite ?lookup_insert_ne, ?Hb1, ?Hb2 by done; try done.
      * destruct (decide (0 <= i1 < Z.of_nat (length b1))) as [H1|H1];
          destruct (decide (0 <= i2 < Z.of_nat (length b2))) as [H2|H2];
          simpl; rewrite ?lookup_insert_ne, ?Hb1, ?Hb2 by done;
          rewrite ?decide_True, ?decide_False by done; try done.
        by rewrite insert_insert_ne by done.
      * by destruct (decide (0 <= i1 < Z.of_nat (length b1))); simpl;
          rewrite ?lookup_insert_ne, ?Hb2 by done.
      * by destruct (decide (0 <= i2 < Z.of_nat (length b2))); simpl;
          rewrite ?lookup_insert_ne, ?Hb1 by done.
  - destruct (d !! l1) as [b1|]; [|done].
    by destruct (decide (0 <= i1 < Z.of_nat (length b1))).
  - destruct (d !! l2) as [b2|]; [|done].
    by destruct (decide (0 <= i2 < Z.of_nat (length b2))).
  - done.
Qed.

(** Stores to distinct cells can be taken in any order. *)
Lemma stores_any_order (l1 l2 : list (store T)) :
  l1 ≡ₚ l2 -> NoDup (store_cell <$> l1) ->
  forall m, for_each l1 device_store m = for_each l2 device_store m.
Proof.
  induction 1 as [|s l1 l2 Hp IH|s1 s2 l|l1 l2 l3 Hp1 IH1 Hp2 IH2];
    intros Hnd m.
  - done.
  - simpl. unfold bind. apply NoDup_cons in Hnd as [_ Hnd].
    destruct (device_store s m) as [[[] m']|e]; [by apply IH|done].
  - simpl. apply NoDup_cons in Hnd as [Hs2 Hnd].
    assert (Hne : store_cell s1 <> store_cell s2).
    { intros Heq. apply Hs2. rewrite Heq. simpl. left. }
    pose proof (device_store_swap s1 s2 m Hne) as Hswap.
    unfold bind in *.
    destruct (device_store s2 m) as [[[] m2]|e2],
             (device_store s1 m) as [[[] m1]|e1]; simpl in *.
    + destruct (device_store s1 m2) as [[[] m21]|e21],
               (device_store s2 m1) as [[[] m12]|e12]; congruence.
    + destruct (device_store s1 m2) as [[[] m21]|e21]; congruence.
    + destruct (device_store s2 m1) as [[[] m12]|e12]; congruence.
    + congruence.
  - rewrite IH1 by done. apply IH2. by rewrite <- Hp1.
Qed.

(** The threads of a fill launch can be taken in any order: the memory
    they leave is that of [launch]. *)
Lemma fill_launch_any_order (p : ptr) (n : Z) (func : unit -> T)
      (threads : list thread) (m : mem T) :
  0 <= n <= 2 ^ 32 - 64 ->
  threads ≡ₚ launch_threads (mk_dim3 (grid_x n) 1)
                            (mk_dim3 TILE_WIDTH TILE_HEIGHT) ->
  for_each threads (run_thread (kernel_fill (DeviceBuffer p n) func)) m
  = launch (mk_dim3 (grid_x n) 1) (mk_dim3 TILE_WIDTH TILE_HEIGHT)
           (kernel_fill (DeviceBuffer p n) func) m.
Proof.
  intros Hn Hperm.
  rewrite threads_perform_stores, launch_performs_stores.
  apply stores_any_order.
  - unfold launch_stores. by rewrite Hperm.
  - assert (Hcells : store_cell <$> omap (kernel_fill (DeviceBuffer p n) func)
                                         threads
                     ≡ₚ (fun j => (p, j)) <$> seqZ 0 (reachable n)).
    { rewrite Hperm. fold (launch_stores (mk_dim3 (grid_x n) 1)
                             (mk_dim3 TILE_WIDTH TILE_HEIGHT)
                             (kernel_fill (DeviceBuffer p n) func)).
      rewrite launch_stores_fill by done.
      by rewrite <- list_fmap_compose. }
    rewrite Hcells. apply NoDup_fmap_2; [|apply NoDup_seqZ].
    by intros j1 j2 [= ->].
Qed.

Lemma filled_all (v : T) (blk : list T) :
  filled (length blk) v blk = replicate (length blk) v.
Proof. unfold filled. by rewrite drop_all, app_nil_r. Qed.

Lemma filled_S c (v : T) blk :
  (c < length blk)%nat -> <[c := v]> (filled c v blk) = filled (S c) v blk.
Proof.
  intros Hc. unfold filled.
  destruct (lookup_lt_is_Some_2 blk c Hc) as [x Hx].
  rewrite insert_app_r_alt by (rewrite length_replicate; lia).
  rewrite length_replicate, Nat.sub_diag.
  rewrite (drop_S _ _ _ Hx). simpl.
  rewrite cons_middle, app_assoc, <- replicate_S_end. done.
Qed.

Lemma length_filled c (v : T) blk :
  (c <= length blk)%nat -> length (filled c v blk) = length blk.
Proof.
  intros Hc. unfold filled.
  rewrite length_app, length_replicate, length_drop. lia.
Qed.

(** Stores of [v] to the cells [0 .. c-1] of one block. *)
Lemma stores_fill_prefix (l : loc) (v : T) (blk : list T) (c : nat) m :
  dev m !! l = Some blk -> (c <= length blk)%nat ->
  for_each ((fun j => Store (Some l) j v) <$> seqZ 0 (Z.of_nat c))
           device_store m
  = Ok (tt, Mem (<[l := filled c v blk]> (dev m)) (host m)).
Proof.
  intros Hblk. induction c as [|c IH]; intros Hc.
  - simpl. unfold ret, filled. simpl. rewrite drop_0.
    rewrite insert_id by done. by destruct m.
  - rewrite seqZ_S, fmap_app, for_each_app, IH by lia.
    simpl. unfold bind, device_store; simpl.
    rewrite lookup_insert_eq.
    rewrite length_filled by lia.
    rewrite decide_True by lia.
    rewrite insert_insert_eq. unfold ret.
    replace (Z.to_nat (0 + Z.of_nat c)) with c by lia.
    rewrite filled_S by lia. done.
Qed.

(** What [device_fill] does to a buffer of at most [2^32 - 64] elements:
    the reachable cells receive [val], the host store is untouched. *)
Lemma device_fill_spec (h : host_shared_ptr) (val : T) m l blk :
  data_ h = Some l -> dev m !! l = Some blk ->
  Z.of_nat (length blk) = size_ h -> size_ h <= 2 ^ 32 - 64 ->
  device_fill h val m
  = Ok (tt, Mem (<[l := filled (Z.to_nat (reachable (size_ h))) val blk]>
                   (dev m))
                (host m)).
Proof.
  intros Hl Hblk Hlen Hmax. unfold device_fill.
  rewrite launch_performs_stores. unfold to_view.
  rewrite launch_stores_fill by lia. rewrite Hl.
  replace (reachable (size_ h))
    with (Z.of_nat (Z.to_nat (reachable (size_ h))))
    at 1 by (unfold reachable; lia).
  apply stores_fill_prefix; [done|]. unfold reachable. lia.
Qed.

End Launches.

(** ** The operations of the handle on a buffer *)

Section Operations.

Context {T : Type} `{!Element T}.

Lemma elems_of_bytes n :
  0 <= n -> sizeofT * n < SIZE_MODULUS ->
  to_size_t (sizeofT * n) / sizeofT = n.
Proof.
  intros Hn Hb. pose proof sizeofT_pos as Hs.
  rewrite to_size_t_id by (unfold in_size_t; split; [nia|done]).
  rewrite Z.mul_comm. apply Z.div_mul. lia.
Qed.

Lemma length_fresh_block (l : loc) n :
  0 <= n -> Z.of_nat (length (fresh_block (T:=T) l n)) = n.
Proof.
  intros Hn. unfold fresh_block. rewrite length_map, length_seq. lia.
Qed.

Lemma fresh_not_live (s : gmap loc (list T)) : s !! fresh (dom s) = None.
Proof. apply not_elem_of_dom, is_fresh. Qed.

Lemma block_at_Some (s : gmap loc (list T)) p blk :
  block_at s p = Some blk <-> exists l, p = Some l /\ s !! l = Some blk.
Proof.
  unfold block_at. destruct p as [l|]; simpl; split.
  - eauto.
  - by intros (l' & [= ->] & ?).
  - done.
  - by intros (l' & [=] & ?).
Qed.

Lemma buffer_device m h :
  buffer_in m h ->
  exists l blk, data_ h = Some l /\ dev m !! l = Some blk
                /\ Z.of_nat (length blk) = size_ h.
Proof.
  intros [_ _ (blk & Hb & Hlen) _]. unfold device_block in Hb.
  apply block_at_Some in Hb as (l & Hl & Hb). eauto 6.
Qed.

Lemma blit_all (s d : list T) n :
  length s = n -> length d = n -> blit n s d = s.
Proof.
  intros Hs Hd. unfold blit.
  rewrite take_ge, drop_ge, app_nil_r by lia. done.
Qed.

(** [host_shared_ptr(size)] makes a buffer without a mirror. *)
Lemma ctor_size_spec (n : Z) (m : mem T) :
  0 <= n -> sizeofT * n < SIZE_MODULUS ->
  let l := fresh (dom (dev m)) in
  let h := {| data_ := Some l; host_data_ := None;
              size_ := n; counter_ := 1 |} in
  let m' := Mem (<[l := fresh_block l n]> (dev m)) (host m) in
  ctor_size n m = Ok (h, m') /\ buffer_in m' h.
Proof.
  intros Hn Hb l h m'. split.
  - unfold ctor_size, device_allocate, bind, cudaMalloc, ret; simpl.
    by rewrite elems_of_bytes.
  - split; simpl; [done|done| |by left].
    exists (fresh_block l n). unfold device_block; simpl.
    rewrite lookup_insert_eq. split; [done|].
    by apply length_fresh_block.
Qed.

Lemma with_mirror_id h lh : host_data_ h = Some lh -> with_mirror h lh = h.
Proof. destruct h; simpl; intros ->; done. Qed.

(** [download()] on a buffer: the mirror, allocated if need be, receives
    the device block. *)
Lemma download_spec (h : host_shared_ptr) (m : mem T) l blk :
  buffer_in m h -> data_ h = Some l -> dev m !! l = Some blk ->
  let lh := mirror_loc m h in
  download h m
  = Ok ((with_mirror h lh, Some lh),
        Mem (dev m) (<[lh := blk]> (host m))).
Proof.
  intros Hbuf Hl Hblk lh. subst lh. unfold mirror_loc.
  destruct Hbuf as [Hn Hb (blk' & Hdev & Hlen) Hmir].
  unfold device_block in Hdev. rewrite Hl in Hdev; simpl in Hdev.
  assert (blk' = blk) as -> by congruence.
  unfold download, bind.
  destruct Hmir as [Hnone|(hb & Hm & Hhlen)].
  - rewrite Hnone; simpl.
    unfold host_allocate0, host_allocate, bind, new_array, ret; simpl.
    unfold cudaMemcpy; simpl. rewrite Hl; simpl. rewrite Hblk.
    rewrite lookup_insert_eq.
    rewrite elems_of_bytes by done.
    pose proof (length_fresh_block (fresh (dom (host m))) (size_ h) Hn).
    rewrite decide_True by lia.
    rewrite insert_insert_eq, blit_all by lia.
    unfold with_mirror. by rewrite Hl.
  - unfold mirror in Hm. apply block_at_Some in Hm as (lh & Hlh & Hm).
    rewrite Hlh; simpl. unfold ret.
    unfold cudaMemcpy; simpl. rewrite Hl, Hlh; simpl. rewrite Hblk, Hm.
    rewrite elems_of_bytes by done.
    rewrite decide_True by lia.
    rewrite blit_all by lia.
    by rewrite with_mirror_id.
Qed.

(** [upload()] on a buffer with a mirror: the device block receives the
    mirror. *)
Lemma upload_spec (h : host_shared_ptr) (m : mem T) l lh hb :
  buffer_in m h -> data_ h = Some l ->
  host_data_ h = Some lh -> host m !! lh = Some hb ->
  upload h m = Ok (tt, Mem (<[l := hb]> (dev m)) (host m)).
Proof.
  intros Hbuf Hl Hlh Hhb.
  destruct Hbuf as [Hn Hb (blk & Hdev & Hlen) Hmir].
  unfold device_block in Hdev. rewrite Hl in Hdev; simpl in Hdev.
  destruct Hmir as [Hnone|(hb' & Hm & Hhlen)]; [congruence|].
  unfold mirror in Hm. rewrite Hlh in Hm; simpl in Hm.
  assert (hb' = hb) as -> by congruence.
  unfold upload, cudaMemcpy; simpl. rewrite Hl, Hlh; simpl.
  rewrite Hdev, Hhb. rewrite elems_of_bytes by done.
  rewrite decide_True by lia.
  by rewrite blit_all by lia.
Qed.

End Operations.

(** ** Filling on the device *)

Section DeviceFill.

Context {T : Type} `{!Element T}.

Lemma reachable_int n : n <= INT_MAX -> reachable n = n.
Proof. unfold reachable, INT_MAX. lia. Qed.

Lemma buffer_in_dev_update m h l blk' :
  buffer_in m h -> data_ h = Some l ->
  Z.of_nat (length blk') = size_ h ->
  buffer_in (Mem (<[l := blk']> (dev m)) (host m)) h.
Proof.
  intros [Hn Hb Hdev Hmir] Hl Hlen. split; [done|done| |done].
  exists blk'. unfold device_block. rewrite Hl; simpl.
  by rewrite lookup_insert_eq.
Qed.

(** On a buffer of at most [INT_MAX] elements [device_fill] succeeds,
    leaves [val] in every device cell and leaves the host store alone. *)
Lemma device_fill_int (h : host_shared_ptr) (val : T) m l :
  buffer_in m h -> data_ h = Some l -> size_ h <= INT_MAX ->
  device_fill h val m
  = Ok (tt, Mem (<[l := replicate (Z.to_nat (size_ h)) val]> (dev m))
                (host m)).
Proof.
  intros Hbuf Hl Hmax.
  destruct (buffer_device m h Hbuf) as (l' & blk & Hl' & Hblk & Hlen).
  assert (l' = l) as -> by congruence.
  rewrite (device_fill_spec h val m l blk) by (unfold INT_MAX in *; lia || done).
  rewrite reachable_int by done.
  replace (Z.to_nat (size_ h)) with (length blk) by lia.
  by rewrite filled_all.
Qed.

End DeviceFill.

Section FillTheorems.

Context {T : Type} `{!Element T}.

(** C2 (amended): for every buffer of element count N, N at most INT_MAX,
    and every value v, [device_fill(v)] followed by [download()] succeeds
    and leaves a host mirror that is exactly N copies of v; [download]
    returns the mirror's address and the element count is unchanged. *)
Theorem device_fill_then_download (h : host_shared_ptr) (v : T) (m : mem T) :
  buffer_in m h -> size_ h <= INT_MAX ->
  exists h' m',
    (device_fill h v ;;; download h) m = Ok ((h', host_data_ h'), m')
    /\ size_ h' = size_ h
    /\ mirror m' h' = Some (replicate (Z.to_nat (size_ h)) v).
Proof.
  intros Hbuf Hmax.
  destruct (buffer_device m h Hbuf) as (l & blk & Hl & Hblk & Hlen).
  pose proof (buf_size _ _ Hbuf) as Hn.
  set (filled_blk := replicate (Z.to_nat (size_ h)) v).
  assert (Hflen : Z.of_nat (length filled_blk) = size_ h)
    by (unfold filled_blk; rewrite length_replicate; lia).
  pose proof (buffer_in_dev_update m h l filled_blk Hbuf Hl Hflen) as Hbuf1.
  set (m1 := Mem (<[l := filled_blk]> (dev m)) (host m)) in *.
  exists (with_mirror h (mirror_loc m1 h)),
         (Mem (dev m1) (<[mirror_loc m1 h := filled_blk]> (host m1))).
  split; [|split].
  - unfold bind at 1.
    rewrite (device_fill_int h v m l) by done. cbv beta iota.
    fold filled_blk. fold m1.
    apply (download_spec h m1 l filled_blk Hbuf1 Hl).
    apply lookup_insert_eq.
  - reflexivity.
  - unfold mirror, with_mirror; simpl. apply lookup_insert_eq.
Qed.

(** C3 (amended): on every buffer of at most INT_MAX elements
    [device_fill(value)] succeeds, leaves [value] in every device element
    and has no host-side effect: the host store is the same afterwards (the
    handle, and so its mirror pointer, is only read), hence the mirror and
    each of its elements. Consequently, whatever the mirror holds,
    [upload()], [device_fill(value)], [download()] leave a mirror made of
    [value] only. *)
Theorem device_fill_host_frame (h : host_shared_ptr) (v : T) (m : mem T) :
  buffer_in m h -> size_ h <= INT_MAX ->
  (exists m',
     device_fill h v m = Ok (tt, m')
     /\ device_block m' h = Some (replicate (Z.to_nat (size_ h)) v)
     /\ host m' = host m
     /\ mirror m' h = mirror m h)
  /\ (forall hb, mirror m h = Some hb ->
      exists m',
        (upload h ;;; device_fill h v ;;; download h) m
        = Ok ((h, host_data_ h), m')
        /\ mirror m' h = Some (replicate (Z.to_nat (size_ h)) v)).
Proof.
  intros Hbuf Hmax.
  destruct (buffer_device m h Hbuf) as (l & blk & Hl & Hblk & Hlen).
  pose proof (buf_size _ _ Hbuf) as Hn.
  set (filled_blk := replicate (Z.to_nat (size_ h)) v).
  assert (Hflen : Z.of_nat (length filled_blk) = size_ h)
    by (unfold filled_blk; rewrite length_replicate; lia).
  split.
  - eexists. rewrite (device_fill_int h v m l) by done.
    split; [reflexivity|]. unfold device_block, mirror; simpl.
    rewrite Hl; simpl. by rewrite lookup_insert_eq.
  - intros hb Hhb. unfold mirror in Hhb.
    apply block_at_Some in Hhb as (lh & Hlh & Hhb).
    assert (Hhlen : Z.of_nat (length hb) = size_ h).
    { destruct (buf_mirror _ _ Hbuf) as [?|(hb' & Hm & ?)]; [congruence|].
      unfold mirror in Hm. rewrite Hlh in Hm; simpl in Hm. congruence. }
    pose proof (buffer_in_dev_update m h l hb Hbuf Hl Hhlen) as Hbuf1.
    pose proof (buffer_in_dev_update _ h l filled_blk Hbuf1 Hl Hflen)
      as Hbuf2.
    simpl in Hbuf2. rewrite insert_insert_eq in Hbuf2.
    set (m2 := Mem (<[l := filled_blk]> (dev m)) (host m)) in *.
    exists (Mem (dev m2) (<[lh := filled_blk]> (host m2))).
    split.
    + unfold bind at 1. rewrite (upload_spec h m l lh hb) by done.
      cbv beta iota.
      unfold bind at 1. rewrite (device_fill_int h v _ l) by done.
      cbv beta iota. simpl dev. simpl host. rewrite insert_insert_eq.
      fold filled_blk. fold m2.
      rewrite (download_spec h m2 l filled_blk Hbuf2 Hl)
        by apply lookup_insert_eq.
      unfold mirror_loc. rewrite Hlh. simpl default.
      by rewrite with_mirror_id.
    + unfold mirror; simpl. rewrite Hlh; simpl. apply lookup_insert_eq.
Qed.

End FillTheorems.

(** ** Buffers beyond the reach of an [int] index *)

Section BeyondInt.

Context {T : Type} `{!Element T}.

Lemma lookup_filled_ge c (v : T) blk i :
  (c <= i)%nat -> filled c v blk !! i = blk !! i.
Proof.
  intros Hi. unfold filled.
  rewrite lookup_app_r by (rewrite length_replicate; lia).
  rewrite length_replicate, lookup_drop. f_equal. lia.
Qed.

Lemma lookup_fresh_block (l : loc) n i :
  (i < Z.to_nat n)%nat -> fresh_block (T:=T) l n !! i = Some (uninit l i).
Proof.
  intros Hi. unfold fresh_block.
  change (map (uninit l) (seq 0 (Z.to_nat n)))
    with (uninit l <$> seq 0 (Z.to_nat n)).
  rewrite list_lookup_fmap, lookup_seq_lt by done. done.
Qed.

(** A freshly constructed buffer of more than [2^31] elements: after
    [device_fill] the cell [2^31] still holds what the allocation left
    there, and [download] brings that cell to the mirror. *)
Lemma device_fill_beyond_int (n : Z) (v : T) (m : mem T) :
  2 ^ 31 < n <= 2 ^ 32 - 64 -> sizeofT * n < SIZE_MODULUS ->
  exists h m1 m2 h' m3 dblk hblk,
    ctor_size n m = Ok (h, m1) /\ buffer_in m1 h /\ size_ h = n
    /\ data_ h = Some (fresh (dom (dev m)))
    /\ device_fill h v m1 = Ok (tt, m2)
    /\ device_block m2 h = Some dblk
    /\ dblk !! Z.to_nat (2 ^ 31)
       = Some (uninit (fresh (dom (dev m))) (Z.to_nat (2 ^ 31)))
    /\ download h m2 = Ok ((h', host_data_ h'), m3)
    /\ mirror m3 h' = Some hblk
    /\ hblk !! Z.to_nat (2 ^ 31)
       = Some (uninit (fresh (dom (dev m))) (Z.to_nat (2 ^ 31))).
Proof.
  intros Hn Hbytes.
  assert (H0 : 0 <= n) by lia.
  destruct (ctor_size_spec n m H0 Hbytes) as [Hctor Hbuf].
  set (l := fresh (dom (dev m))) in *.
  set (h := {| data_ := Some l; host_data_ := None;
               size_ := n; counter_ := 1 |}) in *.
  set (m1 := Mem (<[l := fresh_block l n]> (dev m)) (host m)) in *.
  set (c := Z.to_nat (2 ^ 31)).
  assert (Hc : (c < Z.to_nat n)%nat) by (unfold c; lia).
  set (dblk := filled c v (fresh_block l n)).
  assert (Hreach : Z.to_nat (reachable (size_ h)) = c).
  { unfold reachable, c, h; cbv [size_]. f_equal. lia. }
  assert (Hdlen : Z.of_nat (length dblk) = size_ h).
  { unfold dblk. rewrite length_filled;
      rewrite ?length_fresh_block; cbv [h size_]; try lia.
    pose proof (length_fresh_block l n H0). lia. }
  assert (Hfill : device_fill h v m1
                  = Ok (tt, Mem (<[l := dblk]> (dev m)) (host m))).
  { rewrite (device_fill_spec h v m1 l (fresh_block l n)).
    - rewrite Hreach. unfold m1. cbv [dev host].
      by rewrite insert_insert_eq.
    - reflexivity.
    - unfold m1. cbv [dev]. apply lookup_insert_eq.
    - apply length_fresh_block, H0.
    - cbv [h size_]. lia. }
  set (m2 := Mem (<[l := dblk]> (dev m)) (host m)) in *.
  assert (Hbuf2 : buffer_in m2 h).
  { pose proof (buffer_in_dev_update m1 h l dblk Hbuf eq_refl Hdlen) as Hb.
    unfold m1 in Hb. cbv [dev host] in Hb.
    by rewrite insert_insert_eq in Hb. }
  assert (Hcell : dblk !! c = Some (uninit l c)).
  { unfold dblk. rewrite lookup_filled_ge by lia.
    by apply lookup_fresh_block. }
  exists h, m1, m2, (with_mirror h (mirror_loc m2 h)),
         (Mem (dev m2) (<[mirror_loc m2 h := dblk]> (host m2))), dblk, dblk.
  split_and!.
  - exact Hctor.
  - exact Hbuf.
  - reflexivity.
  - reflexivity.
  - exact Hfill.
  - unfold device_block, m2, h. cbv [data_ dev block_at mbind option_bind].
    apply lookup_insert_eq.
  - exact Hcell.
  - apply (download_spec h m2 l dblk Hbuf2 eq_refl).
    unfold m2. cbv [dev]. apply lookup_insert_eq.
  - unfold mirror, with_mirror.
    cbv [host_data_ host block_at mbind option_bind].
    apply lookup_insert_eq.
  - exact Hcell.
Qed.

End BeyondInt.

(** C2, counterexample: in a buffer of [2^31 + 1] [int] elements, made by
    the constructor, [device_fill(42)] then [download()] leave element
    [2^31] of the mirror at what the allocation held (here 0): the mirror
    is not N copies of 42. *)
Lemma beyond_int_mirror_not_filled :
  exists h m h' m' blk,
    ctor_size big empty_mem = Ok (h, m)
    /\ buffer_in m h /\ size_ h = big
    /\ (device_fill h 42 ;;; download h) m = Ok ((h', host_data_ h'), m')
    /\ mirror m' h' = Some blk
    /\ blk !! Z.to_nat (2 ^ 31) = Some 0
    /\ blk <> replicate (Z.to_nat (size_ h)) 42.
Proof.
  destruct (device_fill_beyond_int big 42 empty_mem)
    as (h & m1 & m2 & h' & m3 & dblk & hblk & Hctor & Hbuf & Hsz & _
        & Hfill & _ & _ & Hdl & Hmir & Hcell).
  { unfold big. lia. }
  { unfold big, SIZE_MODULUS. change sizeofT with 4. lia. }
  exists h, m1, h', m3, hblk.
  split_and!; [exact Hctor|exact Hbuf|exact Hsz| |exact Hmir|exact Hcell|].
  - unfold bind. rewrite Hfill. exact Hdl.
  - intros Heq. rewrite Heq in Hcell.
    rewrite lookup_replicate_2 in Hcell by (rewrite Hsz; unfold big; lia).
    discriminate Hcell.
Qed.

(** C3, counterexample: in a buffer of [2^31 + 1] [int] elements
    [device_fill(42)] does not write device element [2^31], which keeps
    what it held (here 0). *)
Lemma beyond_int_device_cell_skipped :
  exists h m m' blk,
    ctor_size big empty_mem = Ok (h, m)
    /\ buffer_in m h /\ size_ h = big
    /\ device_fill h 42 m = Ok (tt, m')
    /\ device_block m' h = Some blk
    /\ 2 ^ 31 < size_ h
    /\ blk !! Z.to_nat (2 ^ 31) = Some 0
    /\ blk <> replicate (Z.to_nat (size_ h)) 42.
Proof.
  destruct (device_fill_beyond_int big 42 empty_mem)
    as (h & m1 & m2 & h' & m3 & dblk & hblk & Hctor & Hbuf & Hsz & _
        & Hfill & Hdev & Hcell & _).
  { unfold big. lia. }
  { unfold big, SIZE_MODULUS. change sizeofT with 4. lia. }
  exists h, m1, m2, dblk.
  split_and!; [exact Hctor|exact Hbuf|exact Hsz|exact Hfill|exact Hdev
              | |exact Hcell|].
  - rewrite Hsz. unfold big. lia.
  - intros Heq. rewrite Heq in Hcell.
    rewrite lookup_replicate_2 in Hcell by (rewrite Hsz; unfold big; lia).
    discriminate Hcell.
Qed.

(** ** The tiling of a launch *)

Section Tiling.

Context {T : Type} `{!Element T}.

Lemma thread_of_coordinates j :
  0 <= j ->
  threadIdx_x (thread_of j) + blockIdx_x (thread_of j)
                              * blockDim_x (thread_of j) = j.
Proof.
  intros Hj. unfold thread_of, TILE_WIDTH; simpl.
  pose proof (Z.div_mod j 64). lia.
Qed.

(** C7 (amended): for every launch over a buffer of element count N, N at
    most INT_MAX, the grid is ceil(N / 64) tiles wide and one tile high,
    a tile is 64 threads wide and one thread high; every thread computes
    the single linear index threadIdx.x + blockIdx.x * blockDim.x; a thread
    whose index is less than N stores to exactly that element and a thread
    whose index is out of range performs no store; the stores of the launch
    are those to the elements 0, 1, ..., N-1, each once. The same holds
    of the benchmark kernel. *)
Theorem launch_tiles (p : ptr) (n : Z) (func : unit -> T) :
  0 <= n <= INT_MAX ->
  let grid := mk_dim3 (grid_x n) 1 in
  let block := mk_dim3 TILE_WIDTH TILE_HEIGHT in
  let buffer := DeviceBuffer p n in
  (dim_x grid = ceil_div n 64 /\ dim_y grid = 1
   /\ dim_x block = 64 /\ dim_y block = 1)
  /\ 64 * (dim_x grid - 1) < n <= 64 * dim_x grid
  /\ length (launch_threads grid block) = Z.to_nat (64 * ceil_div n 64)
  /\ (forall t, t ∈ launch_threads grid block ->
      let index := threadIdx_x t + blockIdx_x t * blockDim_x t in
      linear_index t = index
      /\ kernel_fill buffer func t
         = (if decide (index < n)
            then Some (Store p index (func tt)) else None)
      /\ kernel buffer t
         = (if decide (index < n)
            then Some (Store p index 0) else None))
  /\ st_index <$> launch_stores grid block (kernel_fill buffer func)
     = seqZ 0 n.
Proof.
  intros Hn grid block buffer.
  assert (Hn' : 0 <= n <= 2 ^ 32 - 64) by (unfold INT_MAX in Hn; lia).
  destruct (grid_threads_bound n Hn') as [Hg Ht].
  pose proof (grid_x_ceil n Hn') as Hceil.
  pose proof (ceil_div_bounds n) as Hcb.
  assert (Hthreads : launch_threads grid block
                     = thread_of <$> seqZ 0 (grid_x n * TILE_WIDTH))
    by (apply launch_threads_linear, Hg).
  assert (Hdim : dim_x grid = ceil_div n 64).
  { unfold grid, mk_dim3; cbv [dim_x]. by rewrite to_uint_id. }
  split_and!.
  - exact Hdim.
  - reflexivity.
  - reflexivity.
  - reflexivity.
  - rewrite Hdim. lia.
  - rewrite Hdim. lia.
  - rewrite Hthreads, length_fmap, length_seqZ, Hceil.
    unfold TILE_WIDTH. f_equal. lia.
  - intros t Ht'. rewrite Hthreads in Ht'.
    apply list_elem_of_fmap in Ht' as (j & -> & Hj).
    apply elem_of_seqZ in Hj. intros index.
    assert (Hidx : index = j) by (apply thread_of_coordinates; lia).
    assert (Hj31 : j < 2 ^ 31).
    { rewrite Hceil in *. unfold TILE_WIDTH, INT_MAX in *. lia. }
    assert (Hlin : linear_index (thread_of j) = j).
    { rewrite linear_index_thread_of by (unfold UINT_MODULUS; lia).
      apply to_int_id. unfold in_int, INT_MIN, INT_MAX. lia. }
    assert (Hchk : index_in_range j n = bool_decide (j < n)).
    { rewrite <- (to_int_id j) at 1
        by (unfold in_int, INT_MIN, INT_MAX; lia).
      rewrite index_check by (unfold UINT_MODULUS; lia).
      apply bool_decide_ext. unfold reachable. lia. }
    rewrite Hidx. split_and!.
    + exact Hlin.
    + unfold kernel_fill, buffer; cbv [db_size_ db_data_].
      rewrite Hlin, Hchk, bool_decide_decide. by destruct (decide (j < n)).
    + unfold kernel, buffer; cbv [db_size_ db_data_].
      rewrite Hlin, Hchk, bool_decide_decide. by destruct (decide (j < n)).
  - unfold grid, block, buffer. rewrite launch_stores_fill by done.
    rewrite <- list_fmap_compose, reachable_int by lia.
    apply list_fmap_id.
Qed.

(** No thread computes an index beyond [INT_MAX]. *)
Lemma linear_index_below t : linear_index t <> 2 ^ 31.
Proof.
  pose proof (linear_index_int t) as Ht.
  unfold in_int, INT_MAX in Ht. lia.
Qed.

(** Whatever the launch and the buffer, the element [2^31] is not stored
    to by [kernel_fill]. *)
Lemma int_index_never_stored (grid block : dim3) (buffer : device_buffer)
      (func : unit -> T) :
  2 ^ 31 ∉ st_index <$> launch_stores grid block (kernel_fill buffer func).
Proof.
  intros Hin. apply list_elem_of_fmap in Hin as (s & Hs & Hin).
  unfold launch_stores in Hin.
  apply list_elem_of_omap in Hin as (t & _ & Hk).
  apply kernel_fill_store in Hk as [Hi _].
  apply (linear_index_below t). congruence.
Qed.

(** The grid has the tiles to cover the buffer. *)
Lemma tiles_cover n :
  0 <= n <= 2 ^ 32 - 64 -> n <= 64 * dim_x (mk_dim3 (grid_x n) 1).
Proof.
  intros Hn. destruct (grid_threads_bound n Hn) as [Hg Ht].
  unfold mk_dim3; cbv [dim_x]. rewrite to_uint_id by done.
  unfold TILE_WIDTH in Ht. lia.
Qed.

End Tiling.

(** C7, counterexample: in a launch over a buffer of [2^31 + 1] elements
    the element [2^31] is in range, the grid has the tiles to cover it, no
    thread computes the index [2^31] (the index is an [int]) and no thread
    stores to that element. *)
Lemma beyond_int_element_never_stored :
  0 <= 2 ^ 31 < big
  /\ 2 ^ 31 < 64 * dim_x (mk_dim3 (grid_x big) 1)
  /\ (forall t, t ∈ launch_threads (mk_dim3 (grid_x big) 1)
                                   (mk_dim3 TILE_WIDTH TILE_HEIGHT) ->
                linear_index t <> 2 ^ 31)
  /\ 2 ^ 31 ∉ st_index <$>
       launch_stores (mk_dim3 (grid_x big) 1)
                     (mk_dim3 TILE_WIDTH TILE_HEIGHT)
                     (kernel_fill (DeviceBuffer (Some 0%nat) big)
                                  (fun _ => 42)).
Proof.
  split; [unfold big; lia|]. split; [|split].
  - pose proof (tiles_cover big) as Hc. unfold big in *. lia.
  - intros t _. apply linear_index_below.
  - apply int_index_never_stored.
Qed.

Lemma device_fill_then_download_witness :
  buffer_in mem8 buf8 /\ size_ buf8 <= INT_MAX
  /\ exists h' m',
      (device_fill buf8 42 ;;; download buf8) mem8
      = Ok ((h', host_data_ h'), m')
      /\ size_ h' = size_ buf8
      /\ mirror m' h' = Some (replicate (Z.to_nat (size_ buf8)) 42).
Proof.
  assert (Hb : buffer_in mem8 buf8).
  { split.
    - vm_compute. discriminate.
    - reflexivity.
    - eexists. split; reflexivity.
    - left. reflexivity. }
  assert (Hs : size_ buf8 <= INT_MAX) by (vm_compute; discriminate).
  exact (conj Hb (conj Hs (device_fill_then_download buf8 42 mem8 Hb Hs))).
Defined.

Lemma device_fill_host_frame_witness :
  buffer_in mem8m buf8m /\ size_ buf8m <= INT_MAX
  /\ (exists m',
        device_fill buf8m 42 mem8m = Ok (tt, m')
        /\ device_block m' buf8m
           = Some (replicate (Z.to_nat (size_ buf8m)) 42)
        /\ host m' = host mem8m
        /\ mirror m' buf8m = mirror mem8m buf8m)
  /\ (forall hb, mirror mem8m buf8m = Some hb ->
      exists m',
        (upload buf8m ;;; device_fill buf8m 42 ;;; download buf8m) mem8m
        = Ok ((buf8m, host_data_ buf8m), m')
        /\ mirror m' buf8m = Some (replicate (Z.to_nat (size_ buf8m)) 42)).
Proof.
  assert (Hb : buffer_in mem8m buf8m).
  { split.
    - vm_compute. discriminate.
    - reflexivity.
    - eexists. split; reflexivity.
    - right. eexists. split; reflexivity. }
  assert (Hs : size_ buf8m <= INT_MAX) by (vm_compute; discriminate).
  exact (conj Hb (conj Hs (device_fill_host_frame buf8m 42 mem8m Hb Hs))).
Defined.

Lemma launch_tiles_witness :
  0 <= 8 <= INT_MAX
  /\ st_index <$>
       launch_stores (mk_dim3 (grid_x 8) 1) (mk_dim3 TILE_WIDTH TILE_HEIGHT)
                     (kernel_fill (DeviceBuffer (Some 0%nat) 8)
                                  (fun _ => 42))
     = seqZ 0 8.
Proof.
  assert (Hn : 0 <= 8 <= INT_MAX) by (vm_compute; split; discriminate).
  split; [exact Hn|].
  exact (proj2 (proj2 (proj2 (proj2
           (launch_tiles (Some 0%nat) 8 (fun _ => 42) Hn))))).
Defined.

(** ** Host-side operations *)

Section HostSide.

Context {T : Type} `{!Element T}.

Lemma transform_all (func : T -> T) (blk : list T) n :
  length blk = n -> (func <$> take n blk) ++ drop n blk = func <$> blk.
Proof.
  intros Hlen. by rewrite take_ge, drop_ge, app_nil_r by lia.
Qed.

(** [host_map(func)] on a buffer: every element of the mirror, allocated
    if need be, is replaced by its image. *)
Lemma host_map_spec (h : host_shared_ptr) (func : T -> T) (m : mem T) :
  buffer_in m h ->
  host_map h func m
  = Ok (with_mirror h (mirror_loc m h),
        Mem (dev m)
            (<[mirror_loc m h := func <$> mirror_source m h]> (host m))).
Proof.
  intros [Hn Hb _ Hmir]. unfold host_map, bind, mirror_source, mirror_loc.
  destruct Hmir as [Hnone|(hb & Hm & Hhlen)].
  - unfold mirror. rewrite Hnone; simpl.
    unfold host_allocate0, host_allocate, bind, new_array, ret; simpl.
    unfold std_transform; simpl. rewrite lookup_insert_eq.
    pose proof (length_fresh_block (fresh (dom (host m))) (size_ h) Hn).
    rewrite decide_True by lia.
    rewrite transform_all by lia.
    by rewrite insert_insert_eq.
  - rewrite Hm. unfold mirror in Hm.
    apply block_at_Some in Hm as (lh & Hlh & Hm).
    rewrite Hlh; simpl. unfold ret, std_transform; simpl.
    rewrite Hlh; simpl. rewrite Hm.
    rewrite decide_True by lia.
    rewrite transform_all by lia.
    by rewrite with_mirror_id.
Qed.

(** [host_map] touches one host block only. *)
Lemma host_map_frame (h : host_shared_ptr) (func : T -> T) (m : mem T) :
  buffer_in m h ->
  exists h' m',
    host_map h func m = Ok (h', m')
    /\ dev m' = dev m
    /\ forall p, p <> Some (mirror_loc m h) ->
                 block_at (host m') p = block_at (host m) p.
Proof.
  intros Hbuf. eexists _, _. rewrite host_map_spec by done.
  split; [reflexivity|]. split; [reflexivity|].
  intros [l|] Hp; simpl; [|done].
  apply lookup_insert_ne. congruence.
Qed.

(** C8: for every buffer whose host mirror is allocated, whatever array it
    holds, [host_map] with the identity function succeeds and leaves the
    mirror contents (and the whole memory, and the handle) unchanged. *)
Theorem host_map_identity (h : host_shared_ptr) (m : mem T) (hb : list T) :
  buffer_in m h -> mirror m h = Some hb ->
  exists m',
    host_map h (fun x => x) m = Ok (h, m')
    /\ mirror m' h = Some hb
    /\ m' = m.
Proof.
  intros Hbuf Hm. exists m.
  assert (Hrun : host_map h (fun x => x) m = Ok (h, m)).
  { rewrite host_map_spec by done.
    unfold mirror_source, mirror_loc. rewrite Hm.
    unfold mirror in Hm. apply block_at_Some in Hm as (lh & Hlh & Hm).
    rewrite Hlh; simpl. rewrite list_fmap_id.
    rewrite with_mirror_id by done.
    rewrite insert_id by done. by destruct m. }
  done.
Qed.


End HostSide.

(** ** [copy] *)

Section Copy.

Context {T : Type} `{!Element T}.

Lemma live_not_fresh (s : gmap loc (list T)) l blk :
  s !! l = Some blk -> l <> fresh (dom s).
Proof. intros Hl ->. rewrite fresh_not_live in Hl. discriminate. Qed.

Lemma copy_spec (h : host_shared_ptr) (m : mem T) :
  buffer_in m h -> copy h m = Ok (copy_handle m h, copy_mem m h).
Proof.
  intros Hbuf.
  destruct (buffer_device m h Hbuf) as (l & blk & Hl & Hblk & Hlen).
  destruct Hbuf as [Hn Hb _ Hmir].
  pose proof (live_not_fresh _ _ _ Hblk) as Hfresh.
  pose proof (length_fresh_block (fresh (dom (dev m))) (size_ h) Hn) as Hfl.
  unfold copy, copy_handle, copy_mem, device_block.
  rewrite Hl; simpl. rewrite Hblk.
  unfold bind at 1.
  unfold ctor_size, device_allocate, bind at 1, cudaMalloc, ret.
  rewrite elems_of_bytes by done. cbv beta iota.
  unfold bind at 1, cudaMemcpy. simpl.
  rewrite lookup_insert_eq.
  rewrite lookup_insert_ne by done. rewrite Hblk.
  rewrite elems_of_bytes by done.
  rewrite decide_True by lia.
  rewrite blit_all by lia. rewrite insert_insert_eq.
  destruct Hmir as [Hnone|(hb & Hm & Hhlen)].
  - unfold mirror. rewrite Hnone; simpl. done.
  - rewrite Hm. unfold mirror in Hm.
    apply block_at_Some in Hm as (lh & Hlh & Hm).
    rewrite Hlh; simpl.
    unfold bind, host_allocate0, host_allocate, bind, new_array, ret; simpl.
    unfold std_copy; simpl.
    pose proof (live_not_fresh _ _ _ Hm) as Hhfresh.
    rewrite lookup_insert_eq, lookup_insert_ne by done. rewrite Hm.
    pose proof (length_fresh_block (fresh (dom (host m))) (size_ h) Hn).
    rewrite decide_True by lia.
    rewrite blit_all by lia. by rewrite insert_insert_eq.
Qed.

End Copy.

Section CopyTheorem.

Context {T : Type} `{!Element T}.

Lemma copy_buffers (h : host_shared_ptr) (m : mem T) :
  buffer_in m h ->
  buffer_in (copy_mem m h) (copy_handle m h) /\ buffer_in (copy_mem m h) h.
Proof.
  intros Hbuf.
  destruct (buffer_device m h Hbuf) as (l & blk & Hl & Hblk & Hlen).
  pose proof (live_not_fresh _ _ _ Hblk) as Hfresh.
  destruct Hbuf as [Hn Hb _ Hmir].
  assert (Hdb : device_block m h = Some blk)
    by (unfold device_block; rewrite Hl; done).
  unfold copy_mem, copy_handle. rewrite Hdb.
  destruct Hmir as [Hnone|(hb & Hm & Hhlen)].
  - assert (Hmn : mirror m h = None) by (unfold mirror; by rewrite Hnone).
    rewrite Hmn, Hnone. split; split; simpl; try done.
    + exists blk. unfold device_block; simpl. by rewrite lookup_insert_eq.
    + by left.
    + exists blk. unfold device_block; simpl. rewrite Hl; simpl.
      by rewrite lookup_insert_ne.
    + by left.
  - rewrite Hm. pose proof Hm as Hm'. unfold mirror in Hm'.
    apply block_at_Some in Hm' as (lh & Hlh & Hm').
    pose proof (live_not_fresh _ _ _ Hm') as Hhfresh.
    rewrite Hlh. split; split; simpl; try done.
    + exists blk. unfold device_block; simpl. by rewrite lookup_insert_eq.
    + right. exists hb. unfold mirror; simpl. by rewrite lookup_insert_eq.
    + exists blk. unfold device_block; simpl. rewrite Hl; simpl.
      by rewrite lookup_insert_ne.
    + right. exists hb. unfold mirror; simpl. rewrite Hlh; simpl.
      by rewrite lookup_insert_ne.
Qed.

Lemma host_fill_spec (h : host_shared_ptr) (v : T) (m : mem T) :
  buffer_in m h ->
  exists h' m',
    host_fill h v m = Ok (h', m')
    /\ mirror m' h' = Some (replicate (Z.to_nat (size_ h)) v)
    /\ dev m' = dev m
    /\ forall p, p <> Some (mirror_loc m h) ->
                 block_at (host m') p = block_at (host m) p.
Proof.
  intros Hbuf. unfold host_fill. eexists _, _.
  rewrite host_map_spec by done.
  split; [reflexivity|]. split; [|split; [reflexivity|]].
  - unfold mirror; simpl. rewrite lookup_insert_eq.
    rewrite (const_fmap _ _ v) by done. do 2 f_equal.
    unfold mirror_source, mirror_loc.
    destruct Hbuf as [Hn _ _ [Hnone|(hb & Hm & Hhlen)]].
    + unfold mirror. rewrite Hnone; simpl.
      pose proof (length_fresh_block (T:=T)
                    (fresh (dom (host m))) (size_ h) Hn). lia.
    + rewrite Hm; simpl. lia.
  - intros [l|] Hp; simpl; [|done].
    apply lookup_insert_ne. congruence.
Qed.

End CopyTheorem.

Section CopyIndependence.

Context {T : Type} `{!Element T}.

(** C4: [copy()] on a buffer succeeds and returns a new buffer with its own
    count: its device pointer is an address that was not allocated, the
    block there has the source's element count and contents; it has a
    mirror exactly when the source has one, at a host address that was not
    allocated, holding a copy of the source's mirror; no pointer of the copy
    is a pointer of the source, whose blocks are untouched. Hence
    [host_fill(v)] on the copy (which makes the copy's mirror all v) leaves
    the original's mirror and device block as they were, and [host_fill(v)]
    on the original leaves the copy's. *)
Theorem copy_independent (h : host_shared_ptr) (v : T) (m : mem T) :
  buffer_in m h ->
  exists cp m',
    copy h m = Ok (cp, m')
    /\ (buffer_in m' cp /\ buffer_in m' h)
    /\ (size_ cp = size_ h /\ counter_ cp = 1)
    /\ (exists l', data_ cp = Some l' /\ dev m !! l' = None)
    /\ device_block m' cp = device_block m h
    /\ (host_data_ cp = None <-> host_data_ h = None)
    /\ (forall lh', host_data_ cp = Some lh' -> host m !! lh' = None)
    /\ mirror m' cp = mirror m h
    /\ (data_ cp <> data_ h
        /\ (host_data_ h <> None -> host_data_ cp <> host_data_ h))
    /\ (device_block m' h = device_block m h
        /\ mirror m' h = mirror m h)
    /\ (exists cp2 m2,
          host_fill cp v m' = Ok (cp2, m2)
          /\ mirror m2 cp2 = Some (replicate (Z.to_nat (size_ h)) v)
          /\ mirror m2 h = mirror m' h
          /\ device_block m2 h = device_block m' h)
    /\ (exists h2 m2,
          host_fill h v m' = Ok (h2, m2)
          /\ mirror m2 h2 = Some (replicate (Z.to_nat (size_ h)) v)
          /\ mirror m2 cp = mirror m' cp
          /\ device_block m2 cp = device_block m' cp).
Proof.
  intros Hbuf.
  destruct (copy_buffers h m Hbuf) as [Hbcp Hbh].
  destruct (buffer_device m h Hbuf) as (l & blk & Hl & Hblk & Hlen).
  pose proof (live_not_fresh _ _ _ Hblk) as Hfresh.
  assert (Hdb : device_block m h = Some blk)
    by (unfold device_block; rewrite Hl; done).
  exists (copy_handle m h), (copy_mem m h).
  (* the pointers of the copy against those of the source *)
  assert (Hptr : host_data_ h <> Some (mirror_loc (copy_mem m h)
                                                  (copy_handle m h))
                 /\ host_data_ (copy_handle m h)
                    <> Some (mirror_loc (copy_mem m h) h)).
  { unfold mirror_loc, copy_handle; simpl.
    destruct (buf_mirror _ _ Hbuf) as [Hnone|(hb & Hm & _)].
    - rewrite Hnone. split; discriminate.
    - unfold mirror in Hm. apply block_at_Some in Hm as (lh & Hlh & Hm).
      pose proof (live_not_fresh _ _ _ Hm). rewrite Hlh; simpl.
      split; congruence. }
  destruct Hptr as [Hp1 Hp2].
  split_and!.
  - by apply copy_spec.
  - exact Hbcp.
  - exact Hbh.
  - reflexivity.
  - reflexivity.
  - exists (fresh (dom (dev m))). split; [reflexivity|apply fresh_not_live].
  - unfold device_block, copy_mem, copy_handle; simpl.
    unfold device_block. rewrite Hl; simpl. rewrite Hblk.
    by rewrite lookup_insert_eq.
  - unfold copy_handle; simpl. by destruct (host_data_ h).
  - unfold copy_handle; simpl. intros lh'.
    destruct (host_data_ h); [|done]. intros [= <-]. apply fresh_not_live.
  - unfold mirror, copy_mem, copy_handle; simpl.
    destruct (buf_mirror _ _ Hbuf) as [Hnone|(hb & Hm & _)].
    + rewrite Hnone. done.
    + rewrite Hm. unfold mirror in Hm.
      apply block_at_Some in Hm as (lh & Hlh & Hm).
      rewrite Hlh; simpl. by rewrite lookup_insert_eq.
  - unfold copy_handle; simpl. rewrite Hl. congruence.
  - unfold copy_handle; simpl. intros Hsome.
    destruct (buf_mirror _ _ Hbuf) as [Hnone|(hb & Hm & _)]; [done|].
    unfold mirror in Hm. apply block_at_Some in Hm as (lh & Hlh & Hm).
    pose proof (live_not_fresh _ _ _ Hm). rewrite Hlh. congruence.
  - unfold device_block, copy_mem; simpl. unfold device_block.
    rewrite Hl; simpl. rewrite Hblk. by rewrite lookup_insert_ne.
  - unfold mirror, copy_mem; simpl.
    destruct (buf_mirror _ _ Hbuf) as [Hnone|(hb & Hm & _)].
    + unfold mirror. by rewrite Hnone.
    + rewrite Hm. unfold mirror in Hm.
      apply block_at_Some in Hm as (lh & Hlh & Hm).
      pose proof (live_not_fresh _ _ _ Hm).
      rewrite Hlh; simpl. by rewrite lookup_insert_ne.
  - destruct (host_fill_spec (copy_handle m h) v (copy_mem m h) Hbcp)
      as (cp2 & m2 & Hrun & Hfilled & Hdev & Hframe).
    exists cp2, m2. split_and!.
    + exact Hrun.
    + exact Hfilled.
    + unfold mirror. by apply Hframe.
    + unfold device_block. by rewrite Hdev.
  - destruct (host_fill_spec h v (copy_mem m h) Hbh)
      as (h2 & m2 & Hrun & Hfilled & Hdev & Hframe).
    exists h2, m2. split_and!.
    + exact Hrun.
    + exact Hfilled.
    + unfold mirror. by apply Hframe.
    + unfold device_block. by rewrite Hdev.
Qed.

End CopyIndependence.

(** ** Life cycle *)

Section LifeCycle.

Context {T : Type} `{!Element T}.

(** C10: a default-constructed handle has element count 0, a null device
    pointer, a null host-mirror pointer and count 1. Destroying it is safe
    in every memory: the count reaches zero, [cudaFree] is called on the
    null pointer, which does nothing, the [delete[]] branch is not taken,
    and the memory is left exactly as it was. *)
Theorem default_handle_destroy (m : mem T) :
  (size_ ctor_default = 0 /\ data_ ctor_default = None
   /\ host_data_ ctor_default = None /\ counter_ ctor_default = 1)
  /\ cudaFree (data_ ctor_default) m = Ok (tt, m)
  /\ bool_decide (host_data_ ctor_default <> None) = false
  /\ exists h', dtor ctor_default m = Ok (h', m) /\ counter_ h' = 0.
Proof.
  split_and!; try reflexivity.
  exists {| data_ := None; host_data_ := None; size_ := 0; counter_ := 0 |}.
  split; reflexivity.
Qed.


(** A handle whose count is above 1 gives nothing back when it dies. *)
Lemma dtor_counted_keeps (h : host_shared_ptr) (m : mem T) :
  2 <= counter_ h <= INT_MAX ->
  dtor h m
  = Ok ({| data_ := data_ h; host_data_ := host_data_ h;
           size_ := size_ h; counter_ := counter_ h - 1 |}, m).
Proof.
  intros Hc. unfold dtor, bind, lift, int_sub.
  rewrite decide_True by (unfold INT_MIN, INT_MAX in *; lia).
  by rewrite decide_False by lia.
Qed.

(** A handle whose count is 1 releases its device block when it dies,
    whatever other handles point at that block. *)
Lemma dtor_last_releases (h : host_shared_ptr) (m : mem T) l blk :
  counter_ h = 1 -> data_ h = Some l -> dev m !! l = Some blk ->
  host_data_ h = None ->
  dtor h m
  = Ok ({| data_ := Some l; host_data_ := None;
           size_ := size_ h; counter_ := 0 |},
        Mem (delete l (dev m)) (host m)).
Proof.
  intros Hc Hl Hblk Hnone. unfold dtor, bind, lift, int_sub.
  rewrite Hc, Hl, Hnone. simpl. unfold bind, cudaFree. by rewrite Hblk.
Qed.

(** Both constructors from another handle take its pointers and its
    count plus one; the count of the other handle is not changed. *)
Lemma ctor_copy_fields (p h : host_shared_ptr) :
  ctor_copy p = Ok h ->
  data_ h = data_ p /\ host_data_ h = host_data_ p
  /\ size_ h = size_ p /\ counter_ h = counter_ p + 1.
Proof.
  unfold ctor_copy, int_add. case_decide; [|discriminate].
  intros [= <-]. done.
Qed.

End LifeCycle.

(** *** Two handles on one allocation *)

(** C1, evaluated: after [a(8)], [b(a)] and the destruction of [a], the
    count of [a] is 0 and that of [b] is 2; the device block that [b]
    points at has been released although [b] is alive, so that
    [device_fill] and [download] on [b] fail; destroying [b] afterwards
    brings its count to 1 and releases nothing. *)
Theorem copy_then_destroy_origin_releases :
  exists a' b m,
    copy_then_destroy_origin empty_mem = Ok ((a', b), m)
    /\ counter_ a' = 0 /\ counter_ b = 2
    /\ data_ b = Some 0%nat
    /\ device_block m b = None
    /\ device_fill b 42 m = Fault UndefinedBehaviour
    /\ download b m = Fault CudaFailure
    /\ exists b', dtor b m = Ok (b', m) /\ counter_ b' = 1.
Proof.
  eexists _, _, _. split; [vm_compute; reflexivity|].
  split_and!; try (vm_compute; reflexivity).
  eexists. split; vm_compute; reflexivity.
Qed.

(** In the other order the block outlives the copy: when [b] dies first
    the device block stays, and [a] releases it when it dies in turn. *)
Lemma copy_destroyed_first_keeps :
  exists a b' m,
    copy_then_destroy_copy empty_mem = Ok ((a, b'), m)
    /\ counter_ a = 1 /\ counter_ b' = 1
    /\ device_block m a = Some (fresh_block 0%nat 8)
    /\ exists a' m', dtor a m = Ok (a', m') /\ device_block m' a = None.
Proof.
  eexists _, _, _. split; [vm_compute; reflexivity|].
  split_and!; try (vm_compute; reflexivity).
  eexists _, _. split; vm_compute; reflexivity.
Qed.

(** *** The benchmark *)

(** The benchmark kernel is the fill kernel with the value 0. *)
Lemma kernel_is_fill_zero (buffer : device_buffer) :
  kernel buffer = kernel_fill buffer (fun _ => 0).
Proof. reflexivity. Qed.

Lemma to_bench_is_fill_zero (h : host_shared_ptr) :
  to_bench h = device_fill h 0.
Proof. reflexivity. Qed.

(** A call of [to_bench] on the only handle of a buffer of at most
    [INT_MAX] elements zeroes the device block and releases nothing: the
    parameter dies with a count of 1. *)
Lemma call_to_bench_keeps (h : host_shared_ptr) (m : mem Z) l :
  buffer_in m h -> data_ h = Some l -> size_ h <= INT_MAX ->
  counter_ h = 1 ->
  call_to_bench h m
  = Ok ({| data_ := data_ h; host_data_ := host_data_ h;
           size_ := size_ h; counter_ := 1 |},
        Mem (<[l := replicate (Z.to_nat (size_ h)) 0]> (dev m)) (host m)).
Proof.
  intros Hbuf Hl Hmax Hc.
  set (b := {| data_ := data_ h; host_data_ := host_data_ h;
               size_ := size_ h; counter_ := 2 |}).
  assert (Hb : buffer_in m b) by (by destruct Hbuf).
  assert (Hcopy : ctor_copy h = Ok b).
  { unfold ctor_copy, int_add. rewrite Hc. reflexivity. }
  unfold call_to_bench, bind, lift. rewrite Hcopy.
  rewrite to_bench_is_fill_zero.
  rewrite (device_fill_int b 0 m l Hb Hl Hmax).
  by rewrite dtor_counted_keeps by (unfold INT_MAX; simpl; lia).
Qed.

(** *** Assignment *)

(** What [operator=] assigns and what it leaves. *)
Lemma assign_fields (this r h' : host_shared_ptr) :
  assign this r = Ok h' ->
  data_ h' = data_ r /\ size_ h' = size_ r
  /\ counter_ h' = counter_ r + 1
  /\ host_data_ h' = host_data_ this.
Proof.
  unfold assign, int_add. case_decide; [|discriminate].
  intros [= <-]. done.
Qed.

(** C5, evaluated: assigning a handle whose mirror is at host address 1 to
    a handle whose mirror is at host address 0 takes the device pointer,
    the element count and the count plus one, and leaves the host-mirror
    pointer at 0; the move constructor, from the same source, takes the
    host-mirror pointer as well. *)
Theorem assign_keeps_host_pointer :
  assign assign_target assign_source
  = Ok {| data_ := Some 1%nat; host_data_ := Some 0%nat;
          size_ := 4; counter_ := 2 |}
  /\ host_data_ assign_source = Some 1%nat
  /\ ctor_move assign_source
     = Ok {| data_ := Some 1%nat; host_data_ := Some 1%nat;
             size_ := 4; counter_ := 2 |}.
Proof. split_and!; reflexivity. Qed.

(** ** The theorems at concrete buffers *)

Lemma copy_independent_witness :
  buffer_in mem8m buf8m
  /\ exists cp m',
      copy buf8m mem8m = Ok (cp, m')
      /\ mirror m' cp = mirror mem8m buf8m
      /\ (exists cp2 m2,
            host_fill cp 7 m' = Ok (cp2, m2)
            /\ mirror m2 cp2 = Some (replicate (Z.to_nat (size_ buf8m)) 7)
            /\ mirror m2 buf8m = mirror m' buf8m)
      /\ (exists h2 m2,
            host_fill buf8m 7 m' = Ok (h2, m2)
            /\ mirror m2 h2 = Some (replicate (Z.to_nat (size_ buf8m)) 7)
            /\ mirror m2 cp = mirror m' cp).
Proof.
  assert (Hb : buffer_in mem8m buf8m).
  { split.
    - vm_compute. discriminate.
    - reflexivity.
    - eexists. split; reflexivity.
    - right. eexists. split; reflexivity. }
  split; [exact Hb|].
  destruct (copy_independent buf8m 7 mem8m Hb)
    as (cp & m' & Hrun & _ & _ & _ & _ & _ & _ & Hmir & _ & _
        & (cp2 & m2 & Hf1 & Hv1 & Hm1 & _)
        & (h2 & m3 & Hf2 & Hv2 & Hm2 & _)).
  exists cp, m'. split; [exact Hrun|]. split; [exact Hmir|]. split.
  - exists cp2, m2. split; [exact Hf1|]. split; [exact Hv1|exact Hm1].
  - exists h2, m3. split; [exact Hf2|]. split; [exact Hv2|exact Hm2].
Defined.

Lemma host_map_identity_witness :
  buffer_in mem8m buf8m
  /\ mirror mem8m buf8m = Some [1; 2; 3; 4; 5; 6; 7; 8]
  /\ exists m',
      host_map buf8m (fun x => x) mem8m = Ok (buf8m, m')
      /\ mirror m' buf8m = Some [1; 2; 3; 4; 5; 6; 7; 8]
      /\ m' = mem8m.
Proof.
  assert (Hb : buffer_in mem8m buf8m).
  { split.
    - vm_compute. discriminate.
    - reflexivity.
    - eexists. split; reflexivity.
    - right. eexists. split; reflexivity. }
  assert (Hm : mirror mem8m buf8m = Some [1; 2; 3; 4; 5; 6; 7; 8])
    by reflexivity.
  exact (conj Hb (conj Hm (host_map_identity buf8m mem8m _ Hb Hm))).
Defined.


(** * Further properties of the handle *)

(** ** Transfers *)

Section Transfers.

Context {T : Type} `{!Element T}.

Lemma buffer_in_mirror_update m h lh hb :
  buffer_in m h -> Z.of_nat (length hb) = size_ h ->
  buffer_in (Mem (dev m) (<[lh := hb]> (host m))) (with_mirror h lh).
Proof.
  intros [Hn Hb Hdev Hmir] Hlen. split; [done|done|done|].
  right. exists hb. unfold mirror; simpl. by rewrite lookup_insert_eq.
Qed.

Lemma mirror_loc_with_mirror (m : mem T) h lh :
  mirror_loc m (with_mirror h lh) = lh.
Proof. reflexivity. Qed.

Lemma mem_eta (m : mem T) : Mem (dev m) (host m) = m.
Proof. by destruct m. Qed.

(** [download()] is idempotent: on a buffer it succeeds, leaves the device
    store as it was and a mirror equal to the device block, keeps the
    buffer a buffer, and a second [download()] returns the same pointer and
    changes neither the handle nor the memory. *)
Theorem download_idempotent (h : host_shared_ptr) (m : mem T) :
  buffer_in m h ->
  exists h1 p m1,
    download h m = Ok ((h1, p), m1)
    /\ p = host_data_ h1 /\ p <> None
    /\ dev m1 = dev m
    /\ mirror m1 h1 = device_block m h
    /\ buffer_in m1 h1
    /\ download h1 m1 = Ok ((h1, p), m1).
Proof.
  intros Hbuf.
  destruct (buffer_device m h Hbuf) as (l & blk & Hl & Hblk & Hlen).
  set (lh := mirror_loc m h).
  set (h1 := with_mirror h lh).
  set (m1 := Mem (dev m) (<[lh := blk]> (host m))).
  assert (Hbuf1 : buffer_in m1 h1) by by apply buffer_in_mirror_update.
  exists h1, (Some lh), m1. split_and!.
  - exact (download_spec h m l blk Hbuf Hl Hblk).
  - reflexivity.
  - discriminate.
  - reflexivity.
  - unfold mirror, device_block; simpl. rewrite Hl; simpl.
    by rewrite lookup_insert_eq.
  - exact Hbuf1.
  - rewrite (download_spec h1 m1 l blk Hbuf1 Hl Hblk).
    change (mirror_loc m1 h1) with lh.
    rewrite (with_mirror_id h1 lh eq_refl).
    unfold m1; simpl. by rewrite insert_insert_eq.
Qed.

(** Device to host and back: after [download()] an [upload()] succeeds and
    changes nothing, neither the device block nor any other part of the
    memory. *)
Theorem download_then_upload (h : host_shared_ptr) (m : mem T) :
  buffer_in m h ->
  exists h1 p m1,
    download h m = Ok ((h1, p), m1)
    /\ upload h1 m1 = Ok (tt, m1)
    /\ device_block m1 h1 = device_block m h.
Proof.
  intros Hbuf.
  destruct (buffer_device m h Hbuf) as (l & blk & Hl & Hblk & Hlen).
  set (lh := mirror_loc m h).
  set (h1 := with_mirror h lh).
  set (m1 := Mem (dev m) (<[lh := blk]> (host m))).
  assert (Hbuf1 : buffer_in m1 h1) by by apply buffer_in_mirror_update.
  exists h1, (Some lh), m1. split_and!.
  - exact (download_spec h m l blk Hbuf Hl Hblk).
  - rewrite (upload_spec h1 m1 l lh blk Hbuf1 Hl eq_refl)
      by (unfold m1; simpl; apply lookup_insert_eq).
    unfold m1; simpl. by rewrite insert_id.
  - reflexivity.
Qed.

(** Host to device and back: on a buffer with a mirror, [upload()] then
    [download()] succeed, leave the handle and the host store as they were
    (the mirror keeps its address and its contents) and a device block
    equal to the mirror. *)
Theorem upload_then_download (h : host_shared_ptr) (m : mem T)
        (hb : list T) :
  buffer_in m h -> mirror m h = Some hb ->
  exists m',
    (upload h ;;; download h) m = Ok ((h, host_data_ h), m')
    /\ host m' = host m
    /\ mirror m' h = Some hb
    /\ device_block m' h = Some hb.
Proof.
  intros Hbuf Hm.
  destruct (buffer_device m h Hbuf) as (l & blk & Hl & Hblk & Hlen).
  pose proof Hm as Hm'. unfold mirror in Hm'.
  apply block_at_Some in Hm' as (lh & Hlh & Hhb).
  assert (Hhlen : Z.of_nat (length hb) = size_ h).
  { destruct (buf_mirror _ _ Hbuf) as [?|(hb' & Hm2 & ?)]; congruence. }
  pose proof (buffer_in_dev_update m h l hb Hbuf Hl Hhlen) as Hbuf1.
  exists (Mem (<[l := hb]> (dev m)) (host m)). split_and!.
  - unfold bind. rewrite (upload_spec h m l lh hb) by done.
    rewrite (download_spec h _ l hb Hbuf1 Hl)
      by (simpl; apply lookup_insert_eq).
    unfold mirror_loc. rewrite Hlh. simpl.
    rewrite (insert_id (host m) lh hb) by done.
    by rewrite with_mirror_id.
  - reflexivity.
  - exact Hm.
  - unfold device_block; simpl. rewrite Hl; simpl.
    by rewrite lookup_insert_eq.
Qed.

End Transfers.

(** ** Maps and fills on the host *)

Section HostMaps.

Context {T : Type} `{!Element T}.

Lemma length_mirror_source (m : mem T) h :
  buffer_in m h -> Z.of_nat (length (mirror_source m h)) = size_ h.
Proof.
  intros [Hn _ _ [Hnone|(hb & Hm & Hlen)]]; unfold mirror_source.
  - unfold mirror. rewrite Hnone; simpl. by apply length_fresh_block.
  - by rewrite Hm.
Qed.

Lemma host_map_buffer (m : mem T) h (func : T -> T) :
  buffer_in m h ->
  buffer_in (Mem (dev m)
                 (<[mirror_loc m h := func <$> mirror_source m h]> (host m)))
            (with_mirror h (mirror_loc m h)).
Proof.
  intros Hbuf. apply buffer_in_mirror_update; [done|].
  rewrite length_fmap. by apply length_mirror_source.
Qed.

Lemma mirror_source_with_mirror (d hs : gmap loc (list T)) h lh hb :
  mirror_source (Mem d (<[lh := hb]> hs)) (with_mirror h lh) = hb.
Proof.
  unfold mirror_source, mirror; simpl. by rewrite lookup_insert_eq.
Qed.

(** [host_map(func)] on a buffer succeeds and replaces every element of
    the mirror by its image, in place: with a mirror, the handle and the
    set of host allocations are unchanged; without one, a mirror of
    [size_] elements is allocated at an address that was free and the
    images are those of its indeterminate contents. The device store and
    every other host block are untouched and the buffer stays a buffer. *)
Theorem host_map_contents (h : host_shared_ptr) (func : T -> T) (m : mem T) :
  buffer_in m h ->
  exists h' m',
    host_map h func m = Ok (h', m')
    /\ buffer_in m' h'
    /\ dev m' = dev m
    /\ (data_ h' = data_ h /\ size_ h' = size_ h /\ counter_ h' = counter_ h)
    /\ (forall hb, mirror m h = Some hb ->
        h' = h /\ mirror m' h = Some (func <$> hb)
        /\ dom (host m') = dom (host m))
    /\ (host_data_ h = None ->
        host_data_ h' = Some (fresh (dom (host m)))
        /\ host m !! fresh (dom (host m)) = None
        /\ mirror m' h'
           = Some (func <$> fresh_block (fresh (dom (host m))) (size_ h)))
    /\ (forall p, p <> host_data_ h' ->
        block_at (host m') p = block_at (host m) p).
Proof.
  intros Hbuf. eexists _, _. rewrite host_map_spec by done.
  split; [reflexivity|]. split_and!.
  - by apply host_map_buffer.
  - reflexivity.
  - reflexivity.
  - reflexivity.
  - reflexivity.
  - intros hb Hm. unfold mirror_source, mirror_loc. rewrite Hm.
    unfold mirror in Hm. apply block_at_Some in Hm as (lh & Hlh & Hm).
    rewrite Hlh; simpl. split_and!.
    + by apply with_mirror_id.
    + unfold mirror; simpl. rewrite Hlh; simpl. by rewrite lookup_insert_eq.
    + apply dom_insert_lookup_L. by eexists.
  - intros Hnone. unfold mirror_source, mirror_loc, mirror.
    rewrite Hnone; simpl. split_and!.
    + reflexivity.
    + apply fresh_not_live.
    + by rewrite lookup_insert_eq.
  - intros [l|] Hp; simpl; [|done].
    apply lookup_insert_ne. simpl in Hp. congruence.
Qed.

(** Two maps in a row are the map of the composition: same handle, same
    memory. *)
Theorem host_map_compose (h : host_shared_ptr) (f g : T -> T) (m : mem T) :
  buffer_in m h ->
  (h1 <- host_map h f ;; host_map h1 g) m = host_map h (g ∘ f) m.
Proof.
  intros Hbuf. unfold bind.
  rewrite (host_map_spec h f m Hbuf), (host_map_spec h (g ∘ f) m Hbuf).
  rewrite host_map_spec by by apply host_map_buffer.
  set (lh := mirror_loc m h).
  change (mirror_loc _ (with_mirror h lh)) with lh.
  rewrite (with_mirror_id (with_mirror h lh) lh eq_refl).
  rewrite mirror_source_with_mirror. simpl.
  by rewrite insert_insert_eq, list_fmap_compose.
Qed.

(** [host_fill(val)] then [upload()]: on a buffer both succeed; the mirror
    (allocated by the fill if there was none) and the device block are
    then [size_] copies of [val]. *)
Theorem host_fill_then_upload (h : host_shared_ptr) (v : T) (m : mem T) :
  buffer_in m h ->
  exists h1 m1 m2,
    host_fill h v m = Ok (h1, m1)
    /\ upload h1 m1 = Ok (tt, m2)
    /\ buffer_in m2 h1
    /\ mirror m2 h1 = Some (replicate (Z.to_nat (size_ h)) v)
    /\ device_block m2 h1 = Some (replicate (Z.to_nat (size_ h)) v).
Proof.
  intros Hbuf.
  destruct (buffer_device m h Hbuf) as (l & blk & Hl & Hblk & Hlen).
  set (lh := mirror_loc m h).
  set (hb := replicate (Z.to_nat (size_ h)) v).
  assert (Hsrc : (fun _ => v) <$> mirror_source m h = hb).
  { rewrite (const_fmap _ _ v) by done. unfold hb. f_equal.
    pose proof (length_mirror_source m h Hbuf). lia. }
  assert (Hhlen : Z.of_nat (length hb) = size_ h).
  { unfold hb. rewrite length_replicate.
    pose proof (buf_size _ _ Hbuf). lia. }
  set (h1 := with_mirror h lh).
  set (m1 := Mem (dev m) (<[lh := hb]> (host m))).
  assert (Hbuf1 : buffer_in m1 h1) by by apply buffer_in_mirror_update.
  exists h1, m1, (Mem (<[l := hb]> (dev m1)) (host m1)). split_and!.
  - unfold host_fill. rewrite host_map_spec by done. by rewrite Hsrc.
  - apply (upload_spec h1 m1 l lh hb Hbuf1 Hl eq_refl).
    unfold m1; simpl. apply lookup_insert_eq.
  - by apply buffer_in_dev_update.
  - unfold mirror; simpl. by rewrite lookup_insert_eq.
  - unfold device_block; simpl. rewrite Hl; simpl.
    by rewrite lookup_insert_eq.
Qed.

End HostMaps.

(** ** Element access *)

Section IndexTheorems.

Context {T : Type} `{!Element T}.

Lemma index_cell_mirror (m : mem T) h lh hb i :
  host_data_ h = Some lh -> host m !! lh = Some hb ->
  0 <= i < Z.of_nat (length hb) ->
  index_cell m h i = Some (lh, hb).
Proof.
  intros Hlh Hhb Hi. unfold index_cell. rewrite Hlh, Hhb.
  by rewrite decide_True.
Qed.

(** The read of a cell of a live mirror. *)
Lemma index_read_mirror (m : mem T) h lh hb i x :
  host_data_ h = Some lh -> host m !! lh = Some hb ->
  0 <= i -> hb !! Z.to_nat i = Some x ->
  index_read h i m = Ok (x, m).
Proof.
  intros Hlh Hhb Hi Hx. unfold index_read.
  pose proof (lookup_lt_Some _ _ _ Hx).
  rewrite (index_cell_mirror m h lh hb) by (done || lia).
  by rewrite Hx.
Qed.

(** Where [operator[]] is defined: on a buffer, [h[i]] can be read and
    written exactly when the mirror is allocated and [0 <= i < size_]; a
    read returns element [i] of the mirror and changes nothing; with no
    mirror, or outside these bounds, both accesses are undefined (there is
    no check and no allocation on demand). *)
Theorem index_defined (h : host_shared_ptr) (i : Z) (x : T) (m : mem T) :
  buffer_in m h ->
  (host_data_ h <> None /\ 0 <= i < size_ h ->
   exists y hb,
     mirror m h = Some hb /\ hb !! Z.to_nat i = Some y
     /\ index_read h i m = Ok (y, m)
     /\ exists m', index_write h i x m = Ok (tt, m'))
  /\ (host_data_ h = None \/ i < 0 \/ size_ h <= i ->
      index_read h i m = Fault UndefinedBehaviour
      /\ index_write h i x m = Fault UndefinedBehaviour).
Proof.
  intros Hbuf. split.
  - intros [Hsome Hi].
    destruct (buf_mirror _ _ Hbuf) as [?|(hb & Hm & Hlen)]; [done|].
    pose proof Hm as Hm'. unfold mirror in Hm'.
    apply block_at_Some in Hm' as (lh & Hlh & Hhb).
    destruct (lookup_lt_is_Some_2 hb (Z.to_nat i)) as [y Hy]; [lia|].
    exists y, hb. split_and!; [done|done| |].
    + by apply (index_read_mirror m h lh hb); try lia.
    + eexists. unfold index_write.
      by rewrite (index_cell_mirror m h lh hb) by (done || lia).
  - intros Hout. unfold index_read, index_write, index_cell.
    destruct (buf_mirror _ _ Hbuf) as [Hnone|(hb & Hm & Hlen)].
    + by rewrite Hnone.
    + unfold mirror in Hm. apply block_at_Some in Hm as (lh & Hlh & Hhb).
      rewrite Hlh, Hhb.
      destruct Hout as [?|Hout]; [congruence|].
      by rewrite decide_False by lia.
Qed.

(** A write through [operator[]] and the reads that follow: on a buffer
    with a mirror, [h[i] = x] for [0 <= i < size_] succeeds, after it
    [h[i]] reads [x] and every other [h[j]] reads what it read before; the
    mirror keeps its address and its length, the device store is
    untouched and the buffer stays a buffer. *)
Theorem index_write_read (h : host_shared_ptr) (i : Z) (x : T) (m : mem T)
        (hb : list T) :
  buffer_in m h -> mirror m h = Some hb -> 0 <= i < size_ h ->
  exists m',
    index_write h i x m = Ok (tt, m')
    /\ index_read h i m' = Ok (x, m')
    /\ (forall j y, j <> i -> index_read h j m = Ok (y, m) ->
        index_read h j m' = Ok (y, m'))
    /\ mirror m' h = Some (<[Z.to_nat i := x]> hb)
    /\ dev m' = dev m
    /\ buffer_in m' h.
Proof.
  intros Hbuf Hm Hi.
  destruct (buf_mirror _ _ Hbuf) as [Hnone|(hb' & Hm2 & Hlen)].
  { unfold mirror in Hm. by rewrite Hnone in Hm. }
  assert (hb' = hb) as -> by congruence.
  pose proof Hm as Hm'. unfold mirror in Hm'.
  apply block_at_Some in Hm' as (lh & Hlh & Hhb).
  set (hb2 := <[Z.to_nat i := x]> hb).
  assert (Hlen2 : length hb2 = length hb) by apply length_insert.
  exists (Mem (dev m) (<[lh := hb2]> (host m))). split_and!.
  - unfold index_write.
    by rewrite (index_cell_mirror m h lh hb) by (done || lia).
  - apply (index_read_mirror _ h lh hb2); [done| |lia|].
    + simpl. apply lookup_insert_eq.
    + unfold hb2. apply list_lookup_insert_eq. lia.
  - intros j y Hj Hread. unfold index_read, index_cell in Hread.
    rewrite Hlh, Hhb in Hread.
    destruct (decide (0 <= j < Z.of_nat (length hb))) as [Hjb|]; [|done].
    destruct (hb !! Z.to_nat j) as [y'|] eqn:Hy; [|done].
    injection Hread as ->.
    apply (index_read_mirror _ h lh hb2); [done| |lia|].
    + simpl. apply lookup_insert_eq.
    + unfold hb2. rewrite list_lookup_insert_ne by lia. done.
  - unfold mirror; simpl. rewrite Hlh; simpl. apply lookup_insert_eq.
  - reflexivity.
  - rewrite <- (with_mirror_id h lh Hlh).
    apply buffer_in_mirror_update; [done|]. lia.
Qed.

(** After [download()], [h[i]] reads element [i] of the device block, for
    every [0 <= i < size_], whether or not there was a mirror before. *)
Theorem download_then_index (h : host_shared_ptr) (i : Z) (m : mem T)
        (blk : list T) :
  buffer_in m h -> device_block m h = Some blk -> 0 <= i < size_ h ->
  exists h1 p m1 y,
    download h m = Ok ((h1, p), m1)
    /\ blk !! Z.to_nat i = Some y
    /\ index_read h1 i m1 = Ok (y, m1).
Proof.
  intros Hbuf Hdb Hi.
  destruct (buffer_device m h Hbuf) as (l & blk' & Hl & Hblk & Hlen).
  assert (blk' = blk) as ->.
  { unfold device_block in Hdb. rewrite Hl in Hdb. simpl in Hdb.
    congruence. }
  destruct (lookup_lt_is_Some_2 blk (Z.to_nat i)) as [y Hy]; [lia|].
  exists (with_mirror h (mirror_loc m h)), (Some (mirror_loc m h)),
         (Mem (dev m) (<[mirror_loc m h := blk]> (host m))), y.
  split_and!.
  - exact (download_spec h m l blk Hbuf Hl Hblk).
  - exact Hy.
  - apply (index_read_mirror _ _ (mirror_loc m h) blk); [done| |lia|done].
    simpl. apply lookup_insert_eq.
Qed.

End IndexTheorems.

(** ** Construction and destruction *)

Section Ownership.

Context {T : Type} `{!Element T}.

Lemma dtor_owner (h : host_shared_ptr) (m : mem T) :
  buffer_in m h -> counter_ h = 1 ->
  dtor h m
  = Ok ({| data_ := data_ h; host_data_ := host_data_ h;
           size_ := size_ h; counter_ := 0 |}, released m h).
Proof.
  intros Hbuf Hc.
  destruct (buffer_device m h Hbuf) as (l & blk & Hl & Hblk & Hlen).
  unfold dtor, bind, lift, int_sub, released. rewrite Hc, Hl. simpl.
  unfold bind, cudaFree. rewrite Hblk.
  destruct (buf_mirror _ _ Hbuf) as [Hnone|(hb & Hm & _)].
  - rewrite Hnone. simpl. done.
  - unfold mirror in Hm. apply block_at_Some in Hm as (lh & Hlh & Hhb).
    rewrite Hlh. simpl. unfold bind, delete_array. simpl. by rewrite Hhb.
Qed.

(** The destructor of the only handle of a buffer (count 1) succeeds and
    releases the device block and the mirror, if there is one, and nothing
    else: every other device and host block is as before. *)
Theorem destroy_sole_owner (h : host_shared_ptr) (m : mem T) :
  buffer_in m h -> counter_ h = 1 ->
  exists h0 m',
    dtor h m = Ok (h0, m')
    /\ counter_ h0 = 0
    /\ device_block m' h = None
    /\ mirror m' h = None
    /\ (forall p, p <> data_ h -> block_at (dev m') p = block_at (dev m) p)
    /\ (forall p, p <> host_data_ h ->
        block_at (host m') p = block_at (host m) p).
Proof.
  intros Hbuf Hc. eexists _, _. rewrite dtor_owner by done.
  destruct (buffer_device m h Hbuf) as (l & blk & Hl & Hblk & Hlen).
  split; [reflexivity|]. split; [reflexivity|]. unfold released.
  split_and!.
  - unfold device_block; simpl. rewrite Hl; simpl. apply lookup_delete_eq.
  - unfold mirror; simpl. destruct (host_data_ h) as [lh|]; simpl; [|done].
    apply lookup_delete_eq.
  - intros [l'|] Hp; simpl; [|done]. rewrite Hl.
    apply lookup_delete_ne. congruence.
  - intros [l'|] Hp; simpl; [|done].
    destruct (host_data_ h) as [lh|]; [|done].
    apply lookup_delete_ne. congruence.
Qed.

(** A buffer that is constructed and destroyed, with or without a
    [download()] in between, leaves the memory exactly as it found it:
    nothing stays allocated and no other block is touched. *)
Theorem construct_destroy_balanced (n : Z) (m : mem T) :
  0 <= n -> sizeofT * n < SIZE_MODULUS ->
  (exists h0, (h <- ctor_size n ;; dtor h) m = Ok (h0, m))
  /\ (exists h0,
        (h <- ctor_size n ;; r <- download h ;; dtor (fst r)) m
        = Ok (h0, m)).
Proof.
  intros Hn Hb.
  destruct (ctor_size_spec n m Hn Hb) as [Hctor Hbuf].
  set (l := fresh (dom (dev m))) in *.
  set (h := {| data_ := Some l; host_data_ := None;
               size_ := n; counter_ := 1 |}) in *.
  set (m1 := Mem (<[l := fresh_block l n]> (dev m)) (host m)) in *.
  split.
  - eexists. unfold bind. rewrite Hctor.
    rewrite (dtor_owner h m1 Hbuf eq_refl).
    unfold released, m1; simpl.
    rewrite delete_insert_id by apply fresh_not_live.
    by rewrite mem_eta.
  - eexists. unfold bind at 1. rewrite Hctor. unfold bind.
    rewrite (download_spec h m1 l (fresh_block l n) Hbuf eq_refl)
      by (unfold m1; simpl; apply lookup_insert_eq).
    cbv beta iota. simpl fst.
    rewrite dtor_owner.
    + unfold released, m1, mirror_loc; simpl.
      rewrite !delete_insert_id by apply fresh_not_live.
      by rewrite mem_eta.
    + apply buffer_in_mirror_update; [done|].
      by apply length_fresh_block.
    + reflexivity.
Qed.

(** The buffer that [copy()] returns owns what it points at: destroying it
    releases its device block and its mirror and leaves the memory exactly
    as it was before the copy, the source's blocks included. *)
Theorem copy_destroy_balanced (h : host_shared_ptr) (m : mem T) :
  buffer_in m h ->
  exists h0, (cp <- copy h ;; dtor cp) m = Ok (h0, m).
Proof.
  intros Hbuf.
  destruct (copy_buffers h m Hbuf) as [Hbcp _].
  assert (Hback : released (copy_mem m h) (copy_handle m h) = m).
  { destruct (buffer_device m h Hbuf) as (l & blk & Hl & Hblk & Hlen).
    unfold released, copy_handle, copy_mem, device_block; simpl.
    rewrite Hl; simpl. rewrite Hblk.
    rewrite delete_insert_id by apply fresh_not_live.
    destruct (buf_mirror _ _ Hbuf) as [Hnone|(hb & Hm & _)].
    - unfold mirror. rewrite Hnone; simpl. by rewrite mem_eta.
    - rewrite Hm. unfold mirror in Hm.
      apply block_at_Some in Hm as (lh & Hlh & Hhb). rewrite Hlh.
      rewrite delete_insert_id by apply fresh_not_live.
      by rewrite mem_eta. }
  eexists. unfold bind. rewrite copy_spec by done.
  rewrite (dtor_owner _ _ Hbcp eq_refl). by rewrite Hback.
Qed.

(** A handle made from another one, by the copy constructor, the move
    constructor or the assignment, has that handle's count plus one, so at
    least 2 when the other is alive: its destructor only decrements and
    releases nothing, in any memory. *)
Theorem derived_handle_never_releases (p this h : host_shared_ptr)
        (m : mem T) :
  1 <= counter_ p ->
  ctor_copy p = Ok h \/ ctor_move p = Ok h \/ assign this p = Ok h ->
  counter_ h = counter_ p + 1
  /\ data_ h = data_ p
  /\ exists h', dtor h m = Ok (h', m) /\ counter_ h' = counter_ p.
Proof.
  intros Hp Hmade.
  assert (Hh : counter_ h = counter_ p + 1 /\ data_ h = data_ p
               /\ counter_ p + 1 <= INT_MAX).
  { unfold ctor_copy, ctor_move, assign, int_add in Hmade.
    destruct (decide (INT_MIN <= counter_ p + 1 <= INT_MAX)) as [Hr|];
      [|by destruct Hmade as [?|[?|?]]].
    destruct Hmade as [[= <-]|[[= <-]|[= <-]]]; simpl;
      (split; [reflexivity|split; [reflexivity|apply Hr]]). }
  destruct Hh as (Hc & Hd & Hmax). split; [done|]. split; [done|].
  eexists. rewrite dtor_counted_keeps by lia.
  split; [reflexivity|]. simpl. lia.
Qed.

End Ownership.

(** ** Re-allocating the mirror *)

Section Reallocation.

Context {T : Type} `{!Element T}.


(** [host_allocate(n)] sets the element count and leaves the device block
    as it is: when [n] exceeds the element count the device block was
    allocated for, the next [device_fill] stores beyond the end of that
    block, which is undefined. *)
Theorem host_allocate_grow_then_fill (h : host_shared_ptr) (n : Z) (v : T)
        (m : mem T) :
  buffer_in m h -> size_ h < n <= INT_MAX ->
  exists h1 m1,
    host_allocate h n m = Ok (h1, m1)
    /\ size_ h1 = n
    /\ device_block m1 h1 = device_block m h
    /\ device_fill h1 v m1 = Fault UndefinedBehaviour.
Proof.
  intros Hbuf Hn.
  destruct (buffer_device m h Hbuf) as (l & blk & Hl & Hblk & Hlen).
  pose proof (buf_size _ _ Hbuf) as H0.
  set (lh' := fresh (dom (host m))).
  set (h1 := {| data_ := data_ h; host_data_ := Some lh';
                size_ := n; counter_ := counter_ h |}).
  set (m1 := Mem (dev m) (<[lh' := fresh_block lh' n]> (host m))).
  exists h1, m1. split_and!; try reflexivity.
  unfold device_fill. rewrite launch_performs_stores.
  unfold to_view, h1; simpl. rewrite Hl.
  rewrite launch_stores_fill by (unfold INT_MAX in *; lia).
  rewrite reachable_int by lia.
  assert (Hsplit : seqZ 0 n
                   = seqZ 0 (Z.of_nat (length blk))
                     ++ seqZ (0 + Z.of_nat (length blk))
                             (n - Z.of_nat (length blk))).
  { rewrite <- seqZ_app by lia. f_equal. lia. }
  rewrite Hsplit, fmap_app, for_each_app.
  rewrite (stores_fill_prefix l v blk (length blk) m1) by done.
  rewrite (seqZ_cons (0 + Z.of_nat (length blk))) by lia.
  simpl. unfold bind, device_store; simpl.
  rewrite lookup_insert_eq.
  rewrite length_filled by done.
  by rewrite decide_False by lia.
Qed.

End Reallocation.

(** ** Fills and copies composed *)

Section Composition.

Context {T : Type} `{!Element T}.

(** Of two [device_fill]s in a row the second one wins: on a buffer of at
    most [INT_MAX] elements they leave exactly the memory that the second
    alone leaves. *)
Theorem device_fill_last_wins (h : host_shared_ptr) (v1 v2 : T)
        (m : mem T) :
  buffer_in m h -> size_ h <= INT_MAX ->
  (device_fill h v1 ;;; device_fill h v2) m = device_fill h v2 m.
Proof.
  intros Hbuf Hmax.
  destruct (buffer_device m h Hbuf) as (l & blk & Hl & Hblk & Hlen).
  pose proof (buf_size _ _ Hbuf) as Hn.
  assert (Hflen : Z.of_nat (length (replicate (Z.to_nat (size_ h)) v1))
                  = size_ h) by (rewrite length_replicate; lia).
  pose proof (buffer_in_dev_update m h l _ Hbuf Hl Hflen) as Hbuf1.
  unfold bind. rewrite (device_fill_int h v1 m l) by done.
  rewrite (device_fill_int h v2 _ l Hbuf1 Hl Hmax).
  rewrite (device_fill_int h v2 m l) by done.
  simpl. by rewrite insert_insert_eq.
Qed.

(** The copy carries the device contents: [download()] on the buffer that
    [copy()] returns gives a mirror equal to the source's device block,
    and leaves the source's device block and mirror as they were. *)
Theorem copy_then_download (h : host_shared_ptr) (m : mem T) :
  buffer_in m h ->
  exists cp m1 cp1 p m2,
    copy h m = Ok (cp, m1)
    /\ download cp m1 = Ok ((cp1, p), m2)
    /\ mirror m2 cp1 = device_block m h
    /\ device_block m2 h = device_block m h
    /\ mirror m2 h = mirror m h.
Proof.
  intros Hbuf.
  destruct (copy_buffers h m Hbuf) as [Hbcp Hbh].
  destruct (buffer_device m h Hbuf) as (l & blk & Hl & Hblk & Hlen).
  pose proof (live_not_fresh _ _ _ Hblk) as Hfresh.
  assert (Hdb : device_block m h = Some blk)
    by (unfold device_block; rewrite Hl; done).
  set (cp := copy_handle m h) in *. set (m1 := copy_mem m h) in *.
  assert (Hcpblk : dev m1 !! fresh (dom (dev m)) = Some blk).
  { unfold m1, copy_mem; simpl. rewrite Hdb. apply lookup_insert_eq. }
  set (lc := mirror_loc m1 cp).
  assert (Hlc : host_data_ h <> Some lc).
  { unfold lc, mirror_loc, cp, copy_handle; simpl.
    destruct (buf_mirror _ _ Hbuf) as [Hnone|(hb & Hm & _)].
    - rewrite Hnone. discriminate.
    - unfold mirror in Hm. apply block_at_Some in Hm as (lh & Hlh & Hm).
      pose proof (live_not_fresh _ _ _ Hm). rewrite Hlh; simpl. congruence. }
  exists cp, m1, (with_mirror cp lc), (Some lc),
         (Mem (dev m1) (<[lc := blk]> (host m1))).
  split_and!.
  - by apply copy_spec.
  - exact (download_spec cp m1 _ blk Hbcp eq_refl Hcpblk).
  - rewrite Hdb. unfold mirror; simpl. apply lookup_insert_eq.
  - unfold device_block, m1, copy_mem; simpl. rewrite Hdb.
    unfold device_block. rewrite Hl; simpl. rewrite Hblk.
    by rewrite lookup_insert_ne.
  - transitivity (mirror m1 h).
    + unfold mirror; simpl. destruct (host_data_ h) as [lh|]; simpl; [|done].
      apply lookup_insert_ne. congruence.
    + unfold mirror, m1, copy_mem; simpl.
      destruct (buf_mirror _ _ Hbuf) as [Hnone|(hb & Hm & _)].
      * unfold mirror. by rewrite Hnone.
      * rewrite Hm. unfold mirror in Hm.
        apply block_at_Some in Hm as (lh & Hlh & Hm).
        pose proof (live_not_fresh _ _ _ Hm).
        rewrite Hlh; simpl. by rewrite lookup_insert_ne.
Qed.

End Composition.

(** ** Handles that share an allocation *)

Section Sharing.

Context {T : Type} `{!Element T}.

Lemma derived_fields (p h : host_shared_ptr) :
  ctor_copy p = Ok h \/ ctor_move p = Ok h ->
  data_ h = data_ p /\ host_data_ h = host_data_ p /\ size_ h = size_ p
  /\ counter_ h = counter_ p + 1 /\ counter_ p + 1 <= INT_MAX.
Proof.
  unfold ctor_copy, ctor_move, int_add. intros Hmade.
  destruct (decide (INT_MIN <= counter_ p + 1 <= INT_MAX)) as [Hr|];
    [|by destruct Hmade].
  destruct Hmade as [[= <-]|[= <-]]; simpl; split_and!; try done; apply Hr.
Qed.

Lemma derived_buffer (p h : host_shared_ptr) (m : mem T) :
  ctor_copy p = Ok h \/ ctor_move p = Ok h ->
  buffer_in m p -> buffer_in m h.
Proof.
  intros Hmade [Hn Hb Hdev Hmir].
  destruct (derived_fields p h Hmade) as (Hd & Hh & Hs & _).
  split; unfold device_block, mirror in *; rewrite ?Hd, ?Hh, ?Hs; done.
Qed.

(** A handle made by the copy or the move constructor points at the blocks
    of the handle it was made from: what [host_map] does through it to the
    mirror is what the other handle finds in its mirror. *)
Theorem derived_handle_aliases (p h : host_shared_ptr) (func : T -> T)
        (m : mem T) (hb : list T) :
  buffer_in m p -> mirror m p = Some hb ->
  ctor_copy p = Ok h \/ ctor_move p = Ok h ->
  exists m1,
    host_map h func m = Ok (h, m1)
    /\ mirror m1 p = Some (func <$> hb)
    /\ mirror m1 h = Some (func <$> hb).
Proof.
  intros Hbuf Hm Hmade.
  pose proof (derived_buffer p h m Hmade Hbuf) as Hbh.
  destruct (derived_fields p h Hmade) as (Hd & Hh & Hs & _).
  assert (Hmh : mirror m h = Some hb) by (unfold mirror; by rewrite Hh).
  pose proof Hm as Hm'. unfold mirror in Hm'.
  apply block_at_Some in Hm' as (lh & Hlh & Hhb).
  eexists. rewrite host_map_spec by done.
  unfold mirror_source, mirror_loc. rewrite Hmh, Hh, Hlh. simpl.
  rewrite with_mirror_id by congruence.
  split; [reflexivity|]. unfold mirror; simpl. rewrite Hh, Hlh. simpl.
  by rewrite lookup_insert_eq.
Qed.

(** The end of the first handle under a second one: when the handle of
    count 1 dies, the handle that was made from it by the copy or the move
    constructor is left with pointers to released blocks; its own
    destructor then releases nothing (no second release), and a
    [device_fill] through it on a non-empty buffer stores to released
    memory. *)
Theorem origin_death_dangles (p h : host_shared_ptr) (v : T) (m : mem T) :
  buffer_in m p -> counter_ p = 1 ->
  ctor_copy p = Ok h \/ ctor_move p = Ok h ->
  exists p0 m',
    dtor p m = Ok (p0, m')
    /\ device_block m' h = None
    /\ mirror m' h = None
    /\ (exists h1, dtor h m' = Ok (h1, m') /\ counter_ h1 = 1)
    /\ (0 < size_ p <= INT_MAX ->
        device_fill h v m' = Fault UndefinedBehaviour).
Proof.
  intros Hbuf Hc Hmade.
  destruct (derived_fields p h Hmade) as (Hd & Hh & Hs & Hch & Hmax).
  destruct (buffer_device m p Hbuf) as (l & blk & Hl & Hblk & Hlen).
  eexists _, _. rewrite dtor_owner by done.
  split; [reflexivity|]. unfold released. rewrite Hl. split_and!.
  - unfold device_block; simpl. rewrite Hd, Hl; simpl.
    apply lookup_delete_eq.
  - unfold mirror; simpl. rewrite Hh.
    destruct (host_data_ p) as [lh|]; simpl; [|done]. apply lookup_delete_eq.
  - eexists. rewrite dtor_counted_keeps by lia.
    split; [reflexivity|]. simpl. lia.
  - intros Hsz. unfold device_fill. rewrite launch_performs_stores.
    unfold to_view. rewrite Hd, Hs, Hl.
    rewrite launch_stores_fill by (unfold INT_MAX in *; lia).
    rewrite reachable_int by lia.
    rewrite seqZ_cons by lia. simpl.
    unfold bind, device_store; simpl. by rewrite lookup_delete_eq.
Qed.

(** A mirror made through a second handle stays behind: when a buffer
    without mirror has a second handle (copy or move constructor) and
    [download()] is called through that one, the new mirror is known to
    that handle only; its destructor releases nothing, the destructor of
    the first handle releases the device block only, and the mirror is
    still allocated when both are gone. *)
Theorem mirror_through_copy_stays (p h : host_shared_ptr) (m : mem T) :
  buffer_in m p -> host_data_ p = None -> counter_ p = 1 ->
  ctor_copy p = Ok h \/ ctor_move p = Ok h ->
  exists h1 lh m1 p0 m2 blk,
    download h m = Ok ((h1, Some lh), m1)
    /\ (exists h0, dtor h1 m1 = Ok (h0, m1))
    /\ dtor p m1 = Ok (p0, m2)
    /\ device_block m2 p = None
    /\ device_block m p = Some blk
    /\ host m2 !! lh = Some blk.
Proof.
  intros Hbuf Hnone Hc Hmade.
  pose proof (derived_buffer p h m Hmade Hbuf) as Hbh.
  destruct (derived_fields p h Hmade) as (Hd & Hh & Hs & Hch & Hmax).
  destruct (buffer_device m p Hbuf) as (l & blk & Hl & Hblk & Hlen).
  assert (Hlh : data_ h = Some l) by congruence.
  set (lh := mirror_loc m h).
  set (m1 := Mem (dev m) (<[lh := blk]> (host m))).
  assert (Hbp1 : buffer_in m1 p).
  { destruct Hbuf as [Hn Hb Hdev Hmir]. split; [done|done| |by left].
    exists blk. unfold device_block; simpl. by rewrite Hl. }
  exists (with_mirror h lh), lh, m1,
         {| data_ := data_ p; host_data_ := host_data_ p;
            size_ := size_ p; counter_ := 0 |},
         (released m1 p), blk.
  split_and!.
  - exact (download_spec h m l blk Hbh Hlh Hblk).
  - eexists. by rewrite dtor_counted_keeps by (simpl; lia).
  - by apply dtor_owner.
  - unfold device_block, released; simpl. rewrite Hl; simpl.
    apply lookup_delete_eq.
  - unfold device_block. rewrite Hl; done.
  - unfold released. rewrite Hnone. simpl. apply lookup_insert_eq.
Qed.

End Sharing.

(** ** The further properties at concrete buffers *)

Ltac concrete_buffer :=
  split;
  [ vm_compute; discriminate
  | reflexivity
  | eexists; split; reflexivity
  | first [ left; reflexivity | right; eexists; split; reflexivity ] ].

Lemma download_idempotent_witness :
  buffer_in mem8 buf8
  /\ exists h1 p m1,
      download buf8 mem8 = Ok ((h1, p), m1)
      /\ mirror m1 h1 = device_block mem8 buf8
      /\ download h1 m1 = Ok ((h1, p), m1).
Proof.
  assert (Hb : buffer_in mem8 buf8) by concrete_buffer.
  split; [exact Hb|].
  destruct (download_idempotent buf8 mem8 Hb)
    as (h1 & p & m1 & Hd & _ & _ & _ & Hm & _ & Hd2).
  exists h1, p, m1. exact (conj Hd (conj Hm Hd2)).
Defined.

Lemma download_then_upload_witness :
  buffer_in mem8 buf8
  /\ exists h1 p m1,
      download buf8 mem8 = Ok ((h1, p), m1)
      /\ upload h1 m1 = Ok (tt, m1)
      /\ device_block m1 h1 = device_block mem8 buf8.
Proof.
  assert (Hb : buffer_in mem8 buf8) by concrete_buffer.
  exact (conj Hb (download_then_upload buf8 mem8 Hb)).
Defined.

Lemma upload_then_download_witness :
  buffer_in mem8m buf8m
  /\ mirror mem8m buf8m = Some [1; 2; 3; 4; 5; 6; 7; 8]
  /\ exists m',
      (upload buf8m ;;; download buf8m) mem8m
      = Ok ((buf8m, host_data_ buf8m), m')
      /\ host m' = host mem8m
      /\ mirror m' buf8m = Some [1; 2; 3; 4; 5; 6; 7; 8]
      /\ device_block m' buf8m = Some [1; 2; 3; 4; 5; 6; 7; 8].
Proof.
  assert (Hb : buffer_in mem8m buf8m) by concrete_buffer.
  assert (Hm : mirror mem8m buf8m = Some [1; 2; 3; 4; 5; 6; 7; 8])
    by reflexivity.
  exact (conj Hb (conj Hm (upload_then_download buf8m mem8m _ Hb Hm))).
Defined.

Lemma host_map_contents_witness :
  buffer_in mem8m buf8m
  /\ exists h' m',
      host_map buf8m (fun x => 2 * x) mem8m = Ok (h', m')
      /\ (forall hb, mirror mem8m buf8m = Some hb ->
          h' = buf8m /\ mirror m' buf8m = Some ((fun x => 2 * x) <$> hb)
          /\ dom (host m') = dom (host mem8m)).
Proof.
  assert (Hb : buffer_in mem8m buf8m) by concrete_buffer.
  split; [exact Hb|].
  destruct (host_map_contents buf8m (fun x => 2 * x) mem8m Hb)
    as (h' & m' & Hrun & _ & _ & _ & Hmir & _).
  exists h', m'. exact (conj Hrun Hmir).
Defined.

Lemma host_map_compose_witness :
  buffer_in mem8m buf8m
  /\ (h1 <- host_map buf8m (fun x => x + 1) ;;
      host_map h1 (fun x => 2 * x)) mem8m
     = host_map buf8m ((fun x => 2 * x) ∘ (fun x => x + 1)) mem8m.
Proof.
  assert (Hb : buffer_in mem8m buf8m) by concrete_buffer.
  exact (conj Hb (host_map_compose buf8m _ _ mem8m Hb)).
Defined.

Lemma host_fill_then_upload_witness :
  buffer_in mem8 buf8
  /\ exists h1 m1 m2,
      host_fill buf8 7 mem8 = Ok (h1, m1)
      /\ upload h1 m1 = Ok (tt, m2)
      /\ buffer_in m2 h1
      /\ mirror m2 h1 = Some (replicate (Z.to_nat (size_ buf8)) 7)
      /\ device_block m2 h1 = Some (replicate (Z.to_nat (size_ buf8)) 7).
Proof.
  assert (Hb : buffer_in mem8 buf8) by concrete_buffer.
  exact (conj Hb (host_fill_then_upload buf8 7 mem8 Hb)).
Defined.

Lemma index_defined_witness :
  buffer_in mem8m buf8m
  /\ (host_data_ buf8m <> None /\ 0 <= 3 < size_ buf8m ->
      exists y hb,
        mirror mem8m buf8m = Some hb /\ hb !! Z.to_nat 3 = Some y
        /\ index_read buf8m 3 mem8m = Ok (y, mem8m)
        /\ exists m', index_write buf8m 3 0 mem8m = Ok (tt, m'))
  /\ (host_data_ buf8m = None \/ 3 < 0 \/ size_ buf8m <= 3 ->
      index_read buf8m 3 mem8m = Fault UndefinedBehaviour
      /\ index_write buf8m 3 0 mem8m = Fault UndefinedBehaviour).
Proof.
  assert (Hb : buffer_in mem8m buf8m) by concrete_buffer.
  exact (conj Hb (index_defined buf8m 3 0 mem8m Hb)).
Defined.

Lemma index_write_read_witness :
  buffer_in mem8m buf8m
  /\ mirror mem8m buf8m = Some [1; 2; 3; 4; 5; 6; 7; 8]
  /\ 0 <= 3 < size_ buf8m
  /\ exists m',
      index_write buf8m 3 0 mem8m = Ok (tt, m')
      /\ index_read buf8m 3 m' = Ok (0, m')
      /\ mirror m' buf8m
         = Some (<[Z.to_nat 3 := 0]> [1; 2; 3; 4; 5; 6; 7; 8]).
Proof.
  assert (Hb : buffer_in mem8m buf8m) by concrete_buffer.
  assert (Hm : mirror mem8m buf8m = Some [1; 2; 3; 4; 5; 6; 7; 8])
    by reflexivity.
  assert (Hi : 0 <= 3 < size_ buf8m) by (simpl; lia).
  split; [exact Hb|]. split; [exact Hm|]. split; [exact Hi|].
  destruct (index_write_read buf8m 3 0 mem8m _ Hb Hm Hi)
    as (m' & Hw & Hr & _ & Hmir & _).
  exists m'. exact (conj Hw (conj Hr Hmir)).
Defined.

Lemma download_then_index_witness :
  buffer_in mem8 buf8
  /\ device_block mem8 buf8 = Some (fresh_block 0%nat 8)
  /\ 0 <= 3 < size_ buf8
  /\ exists h1 p m1 y,
      download buf8 mem8 = Ok ((h1, p), m1)
      /\ fresh_block 0%nat 8 !! Z.to_nat 3 = Some y
      /\ index_read h1 3 m1 = Ok (y, m1).
Proof.
  assert (Hb : buffer_in mem8 buf8) by concrete_buffer.
  assert (Hd : device_block mem8 buf8 = Some (fresh_block 0%nat 8))
    by reflexivity.
  assert (Hi : 0 <= 3 < size_ buf8) by (simpl; lia).
  exact (conj Hb (conj Hd (conj Hi
           (download_then_index buf8 3 mem8 _ Hb Hd Hi)))).
Defined.

Lemma destroy_sole_owner_witness :
  buffer_in mem8m buf8m /\ counter_ buf8m = 1
  /\ exists h0 m',
      dtor buf8m mem8m = Ok (h0, m')
      /\ counter_ h0 = 0
      /\ device_block m' buf8m = None
      /\ mirror m' buf8m = None.
Proof.
  assert (Hb : buffer_in mem8m buf8m) by concrete_buffer.
  assert (Hc : counter_ buf8m = 1) by reflexivity.
  split; [exact Hb|]. split; [exact Hc|].
  destruct (destroy_sole_owner buf8m mem8m Hb Hc)
    as (h0 & m' & Hd & Hc0 & Hdev & Hmir & _).
  exists h0, m'. exact (conj Hd (conj Hc0 (conj Hdev Hmir))).
Defined.

Lemma construct_destroy_balanced_witness :
  0 <= 8 /\ sizeofT (T:=Z) * 8 < SIZE_MODULUS
  /\ (exists h0, (h <- ctor_size 8 ;; dtor h) empty_mem = Ok (h0, empty_mem))
  /\ (exists h0,
        (h <- ctor_size 8 ;; r <- download h ;; dtor (fst r)) empty_mem
        = Ok (h0, empty_mem)).
Proof.
  assert (Hn : 0 <= 8) by lia.
  assert (Hs : sizeofT (T:=Z) * 8 < SIZE_MODULUS) by reflexivity.
  exact (conj Hn (conj Hs (construct_destroy_balanced 8 empty_mem Hn Hs))).
Defined.

Lemma copy_destroy_balanced_witness :
  buffer_in mem8m buf8m
  /\ exists h0, (cp <- copy buf8m ;; dtor cp) mem8m = Ok (h0, mem8m).
Proof.
  assert (Hb : buffer_in mem8m buf8m) by concrete_buffer.
  exact (conj Hb (copy_destroy_balanced buf8m mem8m Hb)).
Defined.

Lemma derived_handle_never_releases_witness :
  1 <= counter_ buf8m
  /\ (ctor_copy buf8m = Ok buf8m_copy \/ ctor_move buf8m = Ok buf8m_copy
      \/ assign buf8 buf8m = Ok buf8m_copy)
  /\ counter_ buf8m_copy = counter_ buf8m + 1
  /\ data_ buf8m_copy = data_ buf8m
  /\ exists h',
      dtor buf8m_copy mem8m = Ok (h', mem8m)
      /\ counter_ h' = counter_ buf8m.
Proof.
  assert (Hc : 1 <= counter_ buf8m) by (simpl; lia).
  assert (Hm : ctor_copy buf8m = Ok buf8m_copy
               \/ ctor_move buf8m = Ok buf8m_copy
               \/ assign buf8 buf8m = Ok buf8m_copy)
    by (left; reflexivity).
  exact (conj Hc (conj Hm
           (derived_handle_never_releases buf8m buf8 buf8m_copy mem8m
                                          Hc Hm))).
Defined.


Lemma host_allocate_grow_then_fill_witness :
  buffer_in mem8 buf8 /\ size_ buf8 < 9 <= INT_MAX
  /\ exists h1 m1,
      host_allocate buf8 9 mem8 = Ok (h1, m1)
      /\ size_ h1 = 9
      /\ device_block m1 h1 = device_block mem8 buf8
      /\ device_fill h1 42 m1 = Fault UndefinedBehaviour.
Proof.
  assert (Hb : buffer_in mem8 buf8) by concrete_buffer.
  assert (Hn : size_ buf8 < 9 <= INT_MAX)
    by (vm_compute; split; [reflexivity|discriminate]).
  exact (conj Hb (conj Hn (host_allocate_grow_then_fill buf8 9 42 mem8
                             Hb Hn))).
Defined.

Lemma device_fill_last_wins_witness :
  buffer_in mem8 buf8 /\ size_ buf8 <= INT_MAX
  /\ (device_fill buf8 1 ;;; device_fill buf8 2) mem8
     = device_fill buf8 2 mem8.
Proof.
  assert (Hb : buffer_in mem8 buf8) by concrete_buffer.
  assert (Hs : size_ buf8 <= INT_MAX) by (vm_compute; discriminate).
  exact (conj Hb (conj Hs (device_fill_last_wins buf8 1 2 mem8 Hb Hs))).
Defined.

Lemma copy_then_download_witness :
  buffer_in mem8m buf8m
  /\ exists cp m1 cp1 p m2,
      copy buf8m mem8m = Ok (cp, m1)
      /\ download cp m1 = Ok ((cp1, p), m2)
      /\ mirror m2 cp1 = device_block mem8m buf8m
      /\ device_block m2 buf8m = device_block mem8m buf8m
      /\ mirror m2 buf8m = mirror mem8m buf8m.
Proof.
  assert (Hb : buffer_in mem8m buf8m) by concrete_buffer.
  exact (conj Hb (copy_then_download buf8m mem8m Hb)).
Defined.

Lemma derived_handle_aliases_witness :
  buffer_in mem8m buf8m
  /\ mirror mem8m buf8m = Some [1; 2; 3; 4; 5; 6; 7; 8]
  /\ (ctor_copy buf8m = Ok buf8m_copy \/ ctor_move buf8m = Ok buf8m_copy)
  /\ exists m1,
      host_map buf8m_copy (fun x => 2 * x) mem8m = Ok (buf8m_copy, m1)
      /\ mirror m1 buf8m
         = Some ((fun x => 2 * x) <$> [1; 2; 3; 4; 5; 6; 7; 8])
      /\ mirror m1 buf8m_copy
         = Some ((fun x => 2 * x) <$> [1; 2; 3; 4; 5; 6; 7; 8]).
Proof.
  assert (Hb : buffer_in mem8m buf8m) by concrete_buffer.
  assert (Hm : mirror mem8m buf8m = Some [1; 2; 3; 4; 5; 6; 7; 8])
    by reflexivity.
  assert (Hc : ctor_copy buf8m = Ok buf8m_copy
               \/ ctor_move buf8m = Ok buf8m_copy) by (left; reflexivity).
  exact (conj Hb (conj Hm (conj Hc
           (derived_handle_aliases buf8m buf8m_copy _ mem8m _ Hb Hm Hc)))).
Defined.

Lemma origin_death_dangles_witness :
  buffer_in mem8 buf8 /\ counter_ buf8 = 1
  /\ (ctor_copy buf8 = Ok buf8_copy \/ ctor_move buf8 = Ok buf8_copy)
  /\ exists p0 m',
      dtor buf8 mem8 = Ok (p0, m')
      /\ device_block m' buf8_copy = None
      /\ mirror m' buf8_copy = None
      /\ (exists h1, dtor buf8_copy m' = Ok (h1, m') /\ counter_ h1 = 1)
      /\ (0 < size_ buf8 <= INT_MAX ->
          device_fill buf8_copy 42 m' = Fault UndefinedBehaviour).
Proof.
  assert (Hb : buffer_in mem8 buf8) by concrete_buffer.
  assert (Hc : counter_ buf8 = 1) by reflexivity.
  assert (Hm : ctor_copy buf8 = Ok buf8_copy
               \/ ctor_move buf8 = Ok buf8_copy) by (right; reflexivity).
  exact (conj Hb (conj Hc (conj Hm
           (origin_death_dangles buf8 buf8_copy 42 mem8 Hb Hc Hm)))).
Defined.

Lemma mirror_through_copy_stays_witness :
  buffer_in mem8 buf8 /\ host_data_ buf8 = None /\ counter_ buf8 = 1
  /\ (ctor_copy buf8 = Ok buf8_copy \/ ctor_move buf8 = Ok buf8_copy)
  /\ exists h1 lh m1 p0 m2 blk,
      download buf8_copy mem8 = Ok ((h1, Some lh), m1)
      /\ (exists h0, dtor h1 m1 = Ok (h0, m1))
      /\ dtor buf8 m1 = Ok (p0, m2)
      /\ device_block m2 buf8 = None
      /\ device_block mem8 buf8 = Some blk
      /\ host m2 !! lh = Some blk.
Proof.
  assert (Hb : buffer_in mem8 buf8) by concrete_buffer.
  assert (Hn : host_data_ buf8 = None) by reflexivity.
  assert (Hc : counter_ buf8 = 1) by reflexivity.
  assert (Hm : ctor_copy buf8 = Ok buf8_copy
               \/ ctor_move buf8 = Ok buf8_copy) by (left; reflexivity).
  exact (conj Hb (conj Hn (conj Hc (conj Hm
           (mirror_through_copy_stays buf8 buf8_copy mem8 Hb Hn Hc Hm))))).
Defined.

Lemma fill_launch_any_order_witness :
  0 <= 8 <= 2 ^ 32 - 64
  /\ reverse (launch_threads (mk_dim3 (grid_x 8) 1)
                             (mk_dim3 TILE_WIDTH TILE_HEIGHT))
     ≡ₚ launch_threads (mk_dim3 (grid_x 8) 1)
                       (mk_dim3 TILE_WIDTH TILE_HEIGHT)
  /\ for_each (reverse (launch_threads (mk_dim3 (grid_x 8) 1)
                                       (mk_dim3 TILE_WIDTH TILE_HEIGHT)))
              (run_thread (kernel_fill (DeviceBuffer (Some 0%nat) 8)
                                       (fun _ => 42))) mem8
     = launch (mk_dim3 (grid_x 8) 1) (mk_dim3 TILE_WIDTH TILE_HEIGHT)
              (kernel_fill (DeviceBuffer (Some 0%nat) 8) (fun _ => 42))
              mem8.
Proof.
  assert (Hn : 0 <= 8 <= 2 ^ 32 - 64)
    by (vm_compute; split; discriminate).
  assert (Hp : reverse (launch_threads (mk_dim3 (grid_x 8) 1)
                                       (mk_dim3 TILE_WIDTH TILE_HEIGHT))
               ≡ₚ launch_threads (mk_dim3 (grid_x 8) 1)
                                 (mk_dim3 TILE_WIDTH TILE_HEIGHT))
    by apply reverse_Permutation.
  exact (conj Hn (conj Hp
           (fill_launch_any_order (Some 0%nat) 8 (fun _ => 42) _ mem8
                                  Hn Hp))).
Defined.

Lemma call_to_bench_keeps_witness :
  buffer_in mem8 buf8 /\ data_ buf8 = Some 0%nat
  /\ size_ buf8 <= INT_MAX /\ counter_ buf8 = 1
  /\ call_to_bench buf8 mem8
     = Ok ({| data_ := data_ buf8; host_data_ := host_data_ buf8;
              size_ := size_ buf8; counter_ := 1 |},
           Mem (<[0%nat := replicate (Z.to_nat (size_ buf8)) 0]> (dev mem8))
               (host mem8)).
Proof.
  assert (Hb : buffer_in mem8 buf8) by concrete_buffer.
  assert (Hl : data_ buf8 = Some 0%nat) by reflexivity.
  assert (Hs : size_ buf8 <= INT_MAX) by (vm_compute; discriminate).
  assert (Hc : counter_ buf8 = 1) by reflexivity.
  exact (conj Hb (conj Hl (conj Hs (conj Hc
           (call_to_bench_keeps buf8 mem8 0%nat Hb Hl Hs Hc))))).
Defined.
